(** * System Monitor & Network Analyzer

    A shallow embedding of [code.py] (classes [SystemSnapshot],
    [SystemMonitor], [NetworkAnalyzer], [SystemAnalyzer]) and the properties
    of its history buffer, alert evaluation, disk probe, persistence,
    connectivity probe, scheduler and alert configuration.

    Conventions of the embedding.
    - Python [float] is Rocq's primitive binary64 [float]; comparisons are the
      IEEE ones ([PrimFloat.ltb], [PrimFloat.leb]), so [nan] compares false.
    - Python [int] is [Z]; [str] is [string].
    - A Python exception is a value of [exn]; a computation that may raise has
      type [result A], [inl e] meaning that [e] propagates to the caller.
    - Console output is returned as data next to the function's value.
    - What the program reads from its host (OS counters, the clock, the
      network, the keyboard, the data file) is an explicit argument. *)

From Stdlib Require Import ZArith List String Ascii Bool Lia.
From Stdlib Require Import PrimFloat SpecFloat FloatOps FloatAxioms.
From stdpp Require Import base option list gmap strings.

Import ListNotations.
Local Open Scope list_scope.

(** ** Exceptions and the Python runtime *)

Inductive exn : Set :=
| OSError
| AttributeError
| ZeroDivisionError
| KeyError
| TypeError
| ValueError
| StatisticsError
| JSONDecodeError.

Definition result (A : Type) : Type := (exn + A)%type.

Definition ret {A} (a : A) : result A := inr a.
Definition raise {A} (e : exn) : result A := inl e.

Definition bind {A B} (m : result A) (k : A -> result B) : result B :=
  match m with
  | inl e => inl e
  | inr a => k a
  end.

Notation "'do' x <- m ; k" := (bind m (fun x => k))
  (at level 10, x pattern, m at level 100, k at level 200).

(** Library functions of Python the program calls and whose code is not part
    of the repository.  [float_of_str s] is [float(s)] ([None]: ValueError);
    [statistics_mean l] is [statistics.mean(l)] ([None]: StatisticsError,
    raised on empty data only); [int_truediv a b] is [a / b] on two ints with
    [b <> 0]. *)
Class Python : Type := {
  float_of_str : string -> option float;
  statistics_mean : list float -> option float;
  statistics_mean_nonempty :
    forall (x : float) (l : list float), is_Some (statistics_mean (x :: l));
  statistics_mean_empty : statistics_mean [] = None;
  int_truediv : Z -> Z -> float
}.

(** The float nearest to an int. *)
Definition float_of_Z (z : Z) : float :=
  SF2Prim (binary_normalize prec emax z 0 false).

(** [xs[-n:]] on a list, for a positive [n]. *)
Definition lastn {A} (n : nat) (xs : list A) : list A :=
  drop (length xs - n) xs.

(** A [dict] whose iteration order matters: insertion-ordered association
    list; [d[k] = v] overwrites in place or appends. *)
Fixpoint dict_set {V} (k : string) (v : V) (d : list (string * V)) : list (string * V) :=
  match d with
  | [] => [(k, v)]
  | (k', v') :: d' =>
      if String.eqb k k' then (k, v) :: d' else (k', v') :: dict_set k v d'
  end.

Fixpoint dict_get {V} (k : string) (d : list (string * V)) : option V :=
  match d with
  | [] => None
  | (k', v) :: d' => if String.eqb k k' then Some v else dict_get k d'
  end.

Definition dict_values {V} (d : list (string * V)) : list V := map snd d.

(** [d[k]] on a [dict] held as a finite map. *)
Definition subscript {V} (d : gmap string V) (k : string) : result V :=
  match d !! k with
  | Some v => ret v
  | None => raise KeyError
  end.

(** ** SystemSnapshot and SystemMonitor *)

Record SystemSnapshot : Set := mkSnapshot {
  timestamp : string;
  cpu_percent : float;
  memory_percent : float;
  memory_used_gb : float;
  memory_total_gb : float;
  disk_percent : float;
  disk_used_gb : float;
  disk_total_gb : float;
  network_bytes_sent : Z;
  network_bytes_recv : Z;
  active_connections : Z
}.

Record SystemMonitor : Type := mkMonitor {
  platform : string;
  snapshots : list SystemSnapshot;
  alerts_enabled : bool;
  alert_thresholds : gmap string float
}.

Definition set_snapshots (self : SystemMonitor) (l : list SystemSnapshot) : SystemMonitor :=
  {| platform := platform self;
     snapshots := l;
     alerts_enabled := alerts_enabled self;
     alert_thresholds := alert_thresholds self |}.

Definition set_alert_thresholds (self : SystemMonitor) (t : gmap string float) : SystemMonitor :=
  {| platform := platform self;
     snapshots := snapshots self;
     alerts_enabled := alerts_enabled self;
     alert_thresholds := t |}.

Definition set_alerts_enabled (self : SystemMonitor) (b : bool) : SystemMonitor :=
  {| platform := platform self;
     snapshots := snapshots self;
     alerts_enabled := b;
     alert_thresholds := alert_thresholds self |}.

(** [SystemMonitor.__init__]. *)
Definition default_thresholds : gmap string float :=
  <["cpu" := 80%float]> (<["memory" := 85%float]> (<["disk" := 90%float]> ∅)).

Definition SystemMonitor_init (platform_name : string) : SystemMonitor :=
  {| platform := platform_name;
     snapshots := [];
     alerts_enabled := true;
     alert_thresholds := default_thresholds |}.

(** ** Alerts ([SystemMonitor._check_alerts]) *)

(** One entry of the local list [alerts]: the message prefix and the value
    the f-string formats. *)
Inductive Alert : Set :=
| HighCpu (value : float)
| HighMemory (value : float)
| HighDisk (value : float).

(** [a > b] on floats. *)
Definition float_gt (a b : float) : bool := PrimFloat.ltb b a.

(** Returns the list [alerts] that the function prints when it is not empty. *)
Definition _check_alerts (self : SystemMonitor) (snapshot : SystemSnapshot) : result (list Alert) :=
  let alerts := [] in
  do cpu_t <- subscript (alert_thresholds self) "cpu";
  let alerts :=
    if float_gt (cpu_percent snapshot) cpu_t
    then alerts ++ [HighCpu (cpu_percent snapshot)] else alerts in
  do memory_t <- subscript (alert_thresholds self) "memory";
  let alerts :=
    if float_gt (memory_percent snapshot) memory_t
    then alerts ++ [HighMemory (memory_percent snapshot)] else alerts in
  do disk_t <- subscript (alert_thresholds self) "disk";
  let alerts :=
    if float_gt (disk_percent snapshot) disk_t
    then alerts ++ [HighDisk (disk_percent snapshot)] else alerts in
  ret alerts.

(** ** Taking a snapshot ([SystemMonitor.take_snapshot]) *)

(** What the five getters and [datetime.now()] return during one call. *)
Record Measurement : Set := mkMeasurement {
  m_now : string;
  m_cpu : float;
  m_memory : float * float * float;
  m_disk : float * float * float;
  m_network : Z * Z;
  m_connections : Z
}.

Definition build_snapshot (m : Measurement) : SystemSnapshot :=
  let '(mem_percent, mem_used, mem_total) := m_memory m in
  let '(disk_pct, disk_used, disk_total) := m_disk m in
  let '(bytes_sent, bytes_recv) := m_network m in
  {| timestamp := m_now m;
     cpu_percent := m_cpu m;
     memory_percent := mem_percent;
     memory_used_gb := mem_used;
     memory_total_gb := mem_total;
     disk_percent := disk_pct;
     disk_used_gb := disk_used;
     disk_total_gb := disk_total;
     network_bytes_sent := bytes_sent;
     network_bytes_recv := bytes_recv;
     active_connections := m_connections m |}.

(** The monitor after the call (also when the alert check raises, the append
    having happened before it), and the returned snapshot with the alerts
    printed. *)
Definition take_snapshot (self : SystemMonitor) (m : Measurement)
  : SystemMonitor * result (SystemSnapshot * list Alert) :=
  let snapshot := build_snapshot m in
  let appended := snapshots self ++ [snapshot] in
  let kept :=
    if (100 <? length appended)%nat then lastn 100 appended else appended in
  let self' := set_snapshots self kept in
  if alerts_enabled self'
  then (self', do alerts <- _check_alerts self' snapshot; ret (snapshot, alerts))
  else (self', ret (snapshot, [])).

(** N consecutive calls, the state threaded through. *)
Definition take_snapshots (self : SystemMonitor) (ms : list Measurement) : SystemMonitor :=
  fold_left (fun s m => fst (take_snapshot s m)) ms self.

(** ** Disk usage ([SystemMonitor.get_disk_usage]) *)

(** [try: body except (E1, E2): handler]. *)
Definition try_except {A} (body : result A) (catches : exn -> bool) (handler : result A) : result A :=
  match body with
  | inl e => if catches e then handler else inl e
  | inr a => inr a
  end.

(** [a / b] on ints. *)
Definition truediv `{Python} (a b : Z) : result float :=
  if (b =? 0)%Z then raise ZeroDivisionError else ret (int_truediv a b).

(** An object as far as its integer attributes go: [None] for a name it does
    not have. *)
Definition attributes : Type := string -> option Z.

(** [obj.name]: AttributeError for a name the object does not have. *)
Definition getattr (obj : attributes) (name : string) : result Z :=
  match obj name with
  | Some v => ret v
  | None => raise AttributeError
  end.

(** The attributes of [os.statvfs_result] in CPython. *)
Record statvfs_result : Set := mkStatvfs {
  f_bsize : Z;
  f_frsize : Z;
  f_blocks : Z;
  f_bfree : Z;
  f_bavail : Z;
  f_files : Z;
  f_ffree : Z;
  f_favail : Z;
  f_flag : Z;
  f_namemax : Z;
  f_fsid : Z
}.

Definition statvfs_attributes (st : statvfs_result) : attributes :=
  fun name =>
    dict_get name
      [("f_bsize", f_bsize st); ("f_frsize", f_frsize st);
       ("f_blocks", f_blocks st); ("f_bfree", f_bfree st);
       ("f_bavail", f_bavail st); ("f_files", f_files st);
       ("f_ffree", f_ffree st); ("f_favail", f_favail st);
       ("f_flag", f_flag st); ("f_namemax", f_namemax st);
       ("f_fsid", f_fsid st)].

(** The value a [ctypes.c_ulonglong] holds. *)
Definition c_ulonglong (z : Z) : Z := (z mod 2 ^ 64)%Z.

(** The host's file-system interface.  [has_statvfs] is
    [hasattr(os, 'statvfs')]; [fs_encodes path] tells whether the text of a
    path with characters beyond ASCII encodes in the file-system encoding
    (a lone surrogate does not); [os_statvfs path] is what the system call
    behind [os.statvfs] gives for a path it is asked about: the object
    returned, [None] when OSError is raised;
    [GetDiskFreeSpaceExW path] gives what the call leaves in the buffers
    [(free_bytes, total_bytes)] (both stay 0 when the call reports failure),
    [None] when [ctypes.windll] does not exist (AttributeError). *)
Record Host : Type := mkHost {
  has_statvfs : bool;
  fs_encodes : string -> bool;
  os_statvfs : string -> option attributes;
  GetDiskFreeSpaceExW : string -> option (Z * Z)
}.

(** The path has an embedded null character. *)
Fixpoint embedded_null (path : string) : bool :=
  match path with
  | EmptyString => false
  | String c rest => Ascii.eqb c Ascii.zero || embedded_null rest
  end.

(** The path is made of ASCII characters. *)
Fixpoint is_ascii (path : string) : bool :=
  match path with
  | EmptyString => true
  | String c rest => (nat_of_ascii c <? 128)%nat && is_ascii rest
  end.

(** [os.statvfs] converts its argument before it asks the system, and
    refuses it with ValueError when the text does not encode in the
    file-system encoding (UnicodeEncodeError, a ValueError; ASCII text
    always encodes) or has an embedded null character. *)
Definition path_refused (host : Host) (path : string) : bool :=
  negb (is_ascii path || fs_encodes host path) || embedded_null path.

(** [os.statvfs(path)]: ValueError for a path that is refused; otherwise the
    system call returns the object or fails with OSError.
    ([ctypes.c_wchar_p(path)] of the other branch takes any text without an
    exception.) *)
Definition statvfs_call (host : Host) (path : string) : result attributes :=
  if path_refused host path then raise ValueError
  else match os_statvfs host path with
       | Some st => ret st
       | None => raise OSError
       end.

Definition default_path (self : SystemMonitor) (path : option string) : string :=
  match path with
  | Some p => p
  | None => if String.eqb (platform self) "windows" then "C:\" else "/"
  end.

(** The body of the [try] up to the three byte counts
    [(total_bytes, free_bytes, used_bytes)]. *)
Definition disk_bytes (host : Host) (path : string) : result (Z * Z * Z) :=
  if has_statvfs host then
    do statvfs <- statvfs_call host path;
    do frsize <- getattr statvfs "f_frsize";
    do blocks <- getattr statvfs "f_blocks";
    let total_bytes := (frsize * blocks)%Z in
    do frsize' <- getattr statvfs "f_frsize";
    do available <- getattr statvfs "f_available";
    let free_bytes := (frsize' * available)%Z in
    let used_bytes := (total_bytes - free_bytes)%Z in
    ret (total_bytes, free_bytes, used_bytes)
  else
    do buffers <- match GetDiskFreeSpaceExW host path with
                  | Some b => ret b
                  | None => raise AttributeError
                  end;
    let free_bytes := c_ulonglong (fst buffers) in
    let total_bytes := c_ulonglong (snd buffers) in
    let used_bytes := (total_bytes - free_bytes)%Z in
    ret (total_bytes, free_bytes, used_bytes).

Definition catches_os_attribute (e : exn) : bool :=
  match e with
  | OSError | AttributeError => true
  | _ => false
  end.

(** The body of the [try]: [(percent, used_gb, total_gb)].  The [else 0] of
    the percentage is the int 0, held here as the float zero. *)
Definition disk_usage_try `{Python} (host : Host) (path : string) : result (float * float * float) :=
  do bytes <- disk_bytes host path;
  let '(total_bytes, free_bytes, used_bytes) := bytes in
  do total_gb <- truediv total_bytes (1024 ^ 3);
  do used_gb <- truediv used_bytes (1024 ^ 3);
  do percent <-
    (if (total_bytes >? 0)%Z
     then do q <- truediv used_bytes total_bytes; ret (q * 100)%float
     else ret 0%float);
  ret (percent, used_gb, total_gb).

Definition get_disk_usage `{Python} (self : SystemMonitor) (host : Host) (path : option string)
  : result (float * float * float) :=
  let path := default_path self path in
  try_except
    (disk_usage_try host path)
    catches_os_attribute
    (ret (0%float, 0%float, 0%float)).

(** The total size the function works with, when it gets as far as the
    byte counts. *)
Definition reported_total (host : Host) (path : string) : option Z :=
  match disk_bytes host path with
  | inr (total_bytes, _, _) => Some total_bytes
  | inl _ => None
  end.

(** The OS query itself fails. *)
Definition os_query_fails (host : Host) (path : string) : Prop :=
  if has_statvfs host
  then os_statvfs host path = None
  else GetDiskFreeSpaceExW host path = None.

(** ** Persistence ([SystemAnalyzer.save_data], [load_historical_data]) *)

(** The document tree [json.dump] writes and [json.load] returns.  The text
    between the two is not modelled: Python's [json] prints every float,
    int and string so that it reads back as the same value. *)
#[local] Unset Elimination Schemes.
Inductive json : Set :=
| JNull
| JBool (b : bool)
| JInt (z : Z)
| JFloat (f : float)
| JStr (s : string)
| JList (l : list json)
| JObject (o : list (string * json)).
#[local] Set Elimination Schemes.

(** [dataclasses.asdict] on a snapshot: the flat record, fields in
    declaration order. *)
Definition asdict (s : SystemSnapshot) : list (string * json) :=
  [("timestamp", JStr (timestamp s));
   ("cpu_percent", JFloat (cpu_percent s));
   ("memory_percent", JFloat (memory_percent s));
   ("memory_used_gb", JFloat (memory_used_gb s));
   ("memory_total_gb", JFloat (memory_total_gb s));
   ("disk_percent", JFloat (disk_percent s));
   ("disk_used_gb", JFloat (disk_used_gb s));
   ("disk_total_gb", JFloat (disk_total_gb s));
   ("network_bytes_sent", JInt (network_bytes_sent s));
   ("network_bytes_recv", JInt (network_bytes_recv s));
   ("active_connections", JInt (active_connections s))].

Definition field_names : list string :=
  ["timestamp"; "cpu_percent"; "memory_percent"; "memory_used_gb";
   "memory_total_gb"; "disk_percent"; "disk_used_gb"; "disk_total_gb";
   "network_bytes_sent"; "network_bytes_recv"; "active_connections"].

(** A keyword argument of the constructor; a missing one is a TypeError.
    The dataclass stores any value unchecked; the typed record holds the
    values of the declared types (an int in a float field as the float of
    the same value) and the embedding stops with TypeError on the others. *)
Definition kwarg (name : string) (kw : list (string * json)) : result json :=
  match dict_get name kw with
  | Some v => ret v
  | None => raise TypeError
  end.

Definition as_str (j : json) : result string :=
  match j with
  | JStr s => ret s
  | _ => raise TypeError
  end.

Definition as_float (j : json) : result float :=
  match j with
  | JFloat f => ret f
  | JInt z => ret (float_of_Z z)
  | _ => raise TypeError
  end.

Definition as_int (j : json) : result Z :=
  match j with
  | JInt z => ret z
  | _ => raise TypeError
  end.

(** The constructor called with the keywords [kw]: TypeError on an unexpected
    or a missing keyword. *)
Definition SystemSnapshot_of_kwargs (kw : list (string * json)) : result SystemSnapshot :=
  if forallb (fun k => existsb (String.eqb k) field_names) (map fst kw) then
    do ts <- bind (kwarg "timestamp" kw) as_str;
    do cpu <- bind (kwarg "cpu_percent" kw) as_float;
    do mem <- bind (kwarg "memory_percent" kw) as_float;
    do mem_used <- bind (kwarg "memory_used_gb" kw) as_float;
    do mem_total <- bind (kwarg "memory_total_gb" kw) as_float;
    do disk <- bind (kwarg "disk_percent" kw) as_float;
    do disk_used <- bind (kwarg "disk_used_gb" kw) as_float;
    do disk_total <- bind (kwarg "disk_total_gb" kw) as_float;
    do sent <- bind (kwarg "network_bytes_sent" kw) as_int;
    do recv <- bind (kwarg "network_bytes_recv" kw) as_int;
    do conns <- bind (kwarg "active_connections" kw) as_int;
    ret (mkSnapshot ts cpu mem mem_used mem_total disk disk_used disk_total sent recv conns)
  else raise TypeError.

(** The constructor called on one element of the loaded list, unpacked as
    keywords: the element has to be a mapping. *)
Definition snapshot_of_json (j : json) : result SystemSnapshot :=
  match j with
  | JObject kw => SystemSnapshot_of_kwargs kw
  | _ => raise TypeError
  end.

(** Iterating a loaded value: a list gives its elements, a dict its keys, a
    string its characters; anything else is not iterable. *)
Definition json_iter (j : json) : result (list json) :=
  match j with
  | JList l => ret l
  | JObject o => ret (map (fun kv => JStr (fst kv)) o)
  | JStr s => ret (map (fun c => JStr (String c EmptyString)) (list_ascii_of_string s))
  | _ => raise TypeError
  end.

Fixpoint mapM {A B} (f : A -> result B) (l : list A) : result (list B) :=
  match l with
  | [] => ret []
  | a :: l' => do b <- f a; do bs <- mapM f l'; ret (b :: bs)
  end.

(** The document [save_data] writes: the last 50 snapshots as flat records,
    and the time of saving. *)
Definition save_data (monitor : SystemMonitor) (now_iso : string) : json :=
  JObject
    [("snapshots", JList (map (fun s => JObject (asdict s)) (lastn 50 (snapshots monitor))));
     ("saved_at", JStr now_iso)].

(** The data file as [load_historical_data] finds it. *)
Inductive data_file : Set :=
| NoFile
| Unparsable
| Document (data : json).

Definition catches_decode_type (e : exn) : bool :=
  match e with
  | JSONDecodeError | TypeError => true
  | _ => false
  end.

(** The monitor after loading.  A malformed document is reported and leaves
    the history as it was; [data.get] on a document that is not an object
    is an AttributeError nobody catches. *)
Definition load_historical_data (monitor : SystemMonitor) (file : data_file) : result SystemMonitor :=
  match file with
  | NoFile => ret monitor
  | Unparsable => ret monitor
  | Document data =>
      try_except
        (do o <- match data with
                 | JObject o => ret o
                 | _ => raise AttributeError
                 end;
         let listed := match dict_get "snapshots" o with
                       | Some v => v
                       | None => JList []
                       end in
         do items <- json_iter listed;
         do loaded <- mapM snapshot_of_json items;
         ret (set_snapshots monitor loaded))
        catches_decode_type
        (ret monitor)
  end.

(** ** Historical analysis ([SystemAnalyzer.display_historical_analysis]) *)

Inductive Trend : Set :=
| Increasing
| Decreasing.

(** [max(l)] and [min(l)] as Python computes them, keeping the first extreme. *)
Definition py_max (x : float) (l : list float) : float :=
  fold_left (fun best y => if float_gt y best then y else best) l x.

Definition py_min (x : float) (l : list float) : float :=
  fold_left (fun best y => if PrimFloat.ltb y best then y else best) l x.

Definition mean `{Python} (l : list float) : result float :=
  match statistics_mean l with
  | Some m => ret m
  | None => raise StatisticsError
  end.

Record Statistics : Set := mkStatistics {
  average : float;
  peak : float;
  low : float
}.

(** The three figures printed for a metric: [statistics.mean], [max], [min],
    in that order. *)
Definition statistics_of `{Python} (values : list float) : result Statistics :=
  do avg <- mean values;
  match values with
  | [] => raise ValueError
  | x :: l => ret (mkStatistics avg (py_max x l) (py_min x l))
  end.

(** The trend line: the direction and the two means it prints. *)
Record TrendLine : Set := mkTrendLine {
  direction : Trend;
  recent_cpu : float;
  older_cpu : float
}.

(** What the function prints: the refusal, or the statistics followed by the
    trend line when there is one. *)
Inductive HistoricalAnalysis : Set :=
| NotEnoughData
| Analysis (data_points : nat) (cpu memory : Statistics) (trend : option TrendLine).

(** The block under [if len(cpu_values) >= 10]. *)
Definition cpu_trend `{Python} (cpu_values : list float) : result (option TrendLine) :=
  if (10 <=? length cpu_values)%nat then
    do recent <- mean (lastn 5 cpu_values);
    do older <- mean (take 5 cpu_values);
    let dir := if float_gt recent older then Increasing else Decreasing in
    ret (Some (mkTrendLine dir recent older))
  else ret None.

Definition display_historical_analysis `{Python} (monitor : SystemMonitor) : result HistoricalAnalysis :=
  if (length (snapshots monitor) <? 2)%nat then ret NotEnoughData
  else
    let cpu_values := map cpu_percent (snapshots monitor) in
    let mem_values := map memory_percent (snapshots monitor) in
    do cpu <- statistics_of cpu_values;
    do mem <- statistics_of mem_values;
    do trend <- cpu_trend cpu_values;
    ret (Analysis (length (snapshots monitor)) cpu mem trend).

(** The direction an analysis reports, if it reports one. *)
Definition reported_direction (a : HistoricalAnalysis) : option Trend :=
  match a with
  | NotEnoughData => None
  | Analysis _ _ _ trend => direction <$> trend
  end.

(** ** Connectivity ([NetworkAnalyzer.ping_host], [test_connectivity]) *)

(** How one [socket.create_connection] call ends, and the time it took in
    milliseconds: a connection, or one of the exceptions the probe catches
    (timeout, socket error, OSError).  These are the ends an attempt has for
    a host name the resolver takes, as the names of [test_servers] are; a
    name it refuses outright (an empty or over-long label: UnicodeError,
    which the probe does not catch) is not covered. *)
Inductive attempt : Set :=
| Connected (elapsed_ms : Z)
| Failed (elapsed_ms : Z).

Definition attempt_ms (a : attempt) : Z :=
  match a with
  | Connected d | Failed d => d
  end.

(** The network: [net host port timeout now] is the fate of a connection
    attempt to [host:port] started at clock reading [now] (milliseconds)
    with the given timeout (seconds). *)
Definition Network : Type := string -> Z -> Z -> Z -> attempt.

(** The probe reads the clock, attempts the connection and reads the clock
    again: the value returned and the clock reading at return.  The clock
    is kept in whole milliseconds, so that the seconds-to-milliseconds
    product of the source is the identity. *)
Definition ping_host (net : Network) (host : string) (timeout : Z) (now : Z) : option float * Z :=
  let start_time := now in
  match net host 80%Z timeout now with
  | Connected d =>
      let now' := (now + d)%Z in
      (Some (float_of_Z (now' - start_time)), now')
  | Failed d => (None, (now + d)%Z)
  end.

Definition default_timeout : Z := 3.

Definition test_servers : list (string * Z) :=
  [("google.com", 80%Z); ("cloudflare.com", 80%Z); ("github.com", 80%Z);
   ("stackoverflow.com", 80%Z)].

(** The body of the loop of [test_connectivity]: one probe, its result
    stored under the host's name (the progress messages it prints are left
    out). *)
Definition probe_step (net : Network)
    (acc : list (string * option float) * Z) (server : string * Z)
  : list (string * option float) * Z :=
  let '(ping_time, now') := ping_host net (fst server) default_timeout (snd acc) in
  (dict_set (fst server) ping_time (fst acc), now').

(** The loop over [self.test_servers]: the dict [results] and the clock
    reading when the call returns. *)
Definition test_connectivity (net : Network) (servers : list (string * Z)) (now : Z)
  : list (string * option float) * Z :=
  fold_left (probe_step net) servers ([], now).




(** ** Connection quality ([SystemAnalyzer.run_network_analysis]) *)

Inductive Quality : Set :=
| Excellent
| Good
| Poor.

(** The lines of the connectivity summary block, with the values the
    f-strings format. *)
Inductive SummaryLine : Set :=
| ConnectivityHeader
| ReachableServers (reachable probed : nat)
| AveragePing (avg_ping : float)
| ConnectionQuality (quality : Quality).

Definition classify (avg : float) : Quality :=
  if PrimFloat.ltb avg 50 then Excellent
  else if PrimFloat.ltb avg 100 then Good
  else Poor.

(** [[ping for ping in connectivity.values() if ping is not None]]. *)
Definition valid_pings (connectivity : list (string * option float)) : list float :=
  omap id (dict_values connectivity).

(** What the block under [if valid_pings:] prints; there is no [else]. *)
Definition connectivity_summary `{Python} (connectivity : list (string * option float))
  : result (list SummaryLine) :=
  let valid := valid_pings connectivity in
  match valid with
  | [] => ret []
  | _ :: _ =>
      do avg <- mean valid;
      ret [ConnectivityHeader;
           ReachableServers (length valid) (length connectivity);
           AveragePing avg;
           ConnectionQuality (classify avg)]
  end.

(** The connectivity part of [run_network_analysis] (the listing of the
    interfaces before it and the speed test after it print only). *)
Definition run_network_analysis `{Python} (net : Network) (servers : list (string * Z)) (now : Z)
  : result (list SummaryLine) :=
  connectivity_summary (fst (test_connectivity net servers now)).

(** The qualities a printed block reports. *)
Definition reported_qualities (lines : list SummaryLine) : list Quality :=
  omap (fun line => match line with
                    | ConnectionQuality q => Some q
                    | _ => None
                    end) lines.

(** ** Continuous monitoring ([start_monitoring], [stop_monitoring]) *)

(** Where the thread running [monitor_loop] is: at the test of the [while],
    inside [display_current_status] before the append, in [time.sleep], or
    past the loop. *)
Inductive loop_pc : Set :=
| AtWhile
| InCycle
| InSleep
| LoopDone.

(** Where the caller of [stop_monitoring] is: not in it yet; in
    [monitor_thread.join(timeout=1)], the flag cleared; past the join, about
    to print and save; returned. *)
Inductive stop_pc : Set :=
| NotStopping
| InJoin
| AfterJoin
| StopReturned.

Inductive event : Set :=
| Appended
| StopCalled
| StopDone.

(** The analyzer while it monitors: the fields of the object, the content of
    the data file, and, for the statements, where the two threads are and
    what has happened so far. *)
Record SystemAnalyzer : Type := mkAnalyzer {
  monitor : SystemMonitor;
  running : bool;
  monitor_thread : loop_pc;
  stored : data_file;
  stopper : stop_pc;
  trace : list event
}.

(** The analyzer once [start_monitoring] has started the thread. *)
Definition start_monitoring (m : SystemMonitor) (file : data_file) : SystemAnalyzer :=
  {| monitor := m;
     running := true;
     monitor_thread := AtWhile;
     stored := file;
     stopper := NotStopping;
     trace := [] |}.

(** What the scheduler of the threads may pick next: a step of the loop
    thread (with what the getters measure if the step is the cycle), the
    start of [stop_monitoring], the return of [join] because the thread has
    ended, the return of [join] because its timeout of one second ran out
    with the thread alive, the rest of [stop_monitoring] (with the time
    [save_data] reads).  These are the steps of one monitoring, from one
    call of [start_monitoring] through one call of [stop_monitoring]: what
    the main thread does at the menu once [stop_monitoring] has returned (a
    snapshot of its own, a new call of [start_monitoring], which sets the
    flag again) is not among them. *)
Inductive action : Set :=
| LoopStep (m : Measurement)
| StopBegins
| JoinThreadEnded
| JoinTimedOut
| StopReturns (now_iso : string).

Definition is_done (pc : loop_pc) : bool :=
  match pc with
  | LoopDone => true
  | _ => false
  end.

(** One step of [monitor_loop]; an exception out of the cycle ends the
    thread. *)
Definition monitor_loop_step (a : SystemAnalyzer) (m : Measurement) : option SystemAnalyzer :=
  match monitor_thread a with
  | AtWhile =>
      Some {| monitor := monitor a;
              running := running a;
              monitor_thread := if running a then InCycle else LoopDone;
              stored := stored a;
              stopper := stopper a;
              trace := trace a |}
  | InCycle =>
      let '(monitor', returned) := take_snapshot (monitor a) m in
      Some {| monitor := monitor';
              running := running a;
              monitor_thread := match returned with
                                | inr _ => InSleep
                                | inl _ => LoopDone
                                end;
              stored := stored a;
              stopper := stopper a;
              trace := trace a ++ [Appended] |}
  | InSleep =>
      Some {| monitor := monitor a;
              running := running a;
              monitor_thread := AtWhile;
              stored := stored a;
              stopper := stopper a;
              trace := trace a |}
  | LoopDone => None
  end.

(** [stop_monitoring] in three steps: the flag is cleared and the join
    starts; the join returns; the function saves the data and returns. *)
Definition stop_monitoring_begin (a : SystemAnalyzer) : option SystemAnalyzer :=
  match stopper a with
  | NotStopping =>
      Some {| monitor := monitor a;
              running := false;
              monitor_thread := monitor_thread a;
              stored := stored a;
              stopper := InJoin;
              trace := trace a ++ [StopCalled] |}
  | _ => None
  end.

Definition stop_monitoring_join (thread_ended : bool) (a : SystemAnalyzer) : option SystemAnalyzer :=
  match stopper a with
  | InJoin =>
      if Bool.eqb (is_done (monitor_thread a)) thread_ended then
        Some {| monitor := monitor a;
                running := running a;
                monitor_thread := monitor_thread a;
                stored := stored a;
                stopper := AfterJoin;
                trace := trace a |}
      else None
  | _ => None
  end.

Definition stop_monitoring_return (now_iso : string) (a : SystemAnalyzer) : option SystemAnalyzer :=
  match stopper a with
  | AfterJoin =>
      Some {| monitor := monitor a;
              running := running a;
              monitor_thread := monitor_thread a;
              stored := Document (save_data (monitor a) now_iso);
              stopper := StopReturned;
              trace := trace a ++ [StopDone] |}
  | _ => None
  end.

Definition step (a : SystemAnalyzer) (act : action) : option SystemAnalyzer :=
  match act with
  | LoopStep m => monitor_loop_step a m
  | StopBegins => stop_monitoring_begin a
  | JoinThreadEnded => stop_monitoring_join true a
  | JoinTimedOut => stop_monitoring_join false a
  | StopReturns now_iso => stop_monitoring_return now_iso a
  end.

(** An interleaving: [None] when it asks for a step that is not enabled. *)
Fixpoint run (a : SystemAnalyzer) (schedule : list action) : option SystemAnalyzer :=
  match schedule with
  | [] => Some a
  | act :: rest =>
      match step a act with
      | Some a' => run a' rest
      | None => None
      end
  end.

Definition event_eqb (x y : event) : bool :=
  match x, y with
  | Appended, Appended | StopCalled, StopCalled | StopDone, StopDone => true
  | _, _ => false
  end.

(** The part of a trace after the first occurrence of [e]. *)
Fixpoint after (e : event) (t : list event) : list event :=
  match t with
  | [] => []
  | x :: t' => if event_eqb x e then t' else after e t'
  end.

Definition appends (t : list event) : nat :=
  length (filter (fun x => event_eqb x Appended = true) t).

Definition appends_after (e : event) (t : list event) : nat := appends (after e t).

(** ** Alert configuration ([SystemAnalyzer.configure_alerts]) *)

(** [str.isspace] on the ASCII range. *)
Definition isspace (c : ascii) : bool :=
  let n := nat_of_ascii c in
  ((9 <=? n) && (n <=? 13) || (28 <=? n) && (n <=? 32))%nat.

Fixpoint lstrip (s : string) : string :=
  match s with
  | EmptyString => EmptyString
  | String c s' => if isspace c then lstrip s' else s
  end.

Definition strip (s : string) : string :=
  String.rev (lstrip (String.rev (lstrip s))).

Definition lower_ascii (c : ascii) : ascii :=
  let n := nat_of_ascii c in
  if ((65 <=? n) && (n <=? 90))%nat then ascii_of_nat (n + 32) else c.

Fixpoint lower (s : string) : string :=
  match s with
  | EmptyString => EmptyString
  | String c s' => String (lower_ascii c) (lower s')
  end.

(** What the prompt for one metric prints back. *)
Inductive Outcome : Set :=
| Kept
| ThresholdSet (threshold : float)
| InvalidThreshold
| InvalidValue.

(** [0 < threshold <= 100]. *)
Definition valid_threshold (threshold : float) : bool :=
  PrimFloat.ltb 0 threshold && PrimFloat.leb threshold 100.

(** The body of the loop over the metrics, on the line [input] returned. *)
Definition configure_metric `{Python} (thresholds : gmap string float) (metric : string) (line : string)
  : result (gmap string float * Outcome) :=
  do current <- subscript thresholds metric;
  let new_value := strip line in
  if String.eqb new_value "" then ret (thresholds, Kept)
  else
    match float_of_str new_value with
    | None => ret (thresholds, InvalidValue)
    | Some threshold =>
        if valid_threshold threshold
        then ret (<[metric := threshold]> thresholds, ThresholdSet threshold)
        else ret (thresholds, InvalidThreshold)
    end.

Definition metrics : list string := ["cpu"; "memory"; "disk"].

(** The loop [for metric in ['cpu', 'memory', 'disk']], one input line per
    metric. *)
Fixpoint configure_metrics `{Python} (thresholds : gmap string float)
    (prompts : list (string * string)) : result (gmap string float * list Outcome) :=
  match prompts with
  | [] => ret (thresholds, [])
  | (metric, line) :: rest =>
      do r <- configure_metric thresholds metric line;
      do rs <- configure_metrics (fst r) rest;
      ret (fst rs, snd r :: snd rs)
  end.

(** The whole dialogue on the four lines typed: three thresholds and the
    answer to the toggle question. *)
Definition configure_alerts `{Python} (m : SystemMonitor)
    (cpu_line memory_line disk_line toggle_line : string)
  : result (SystemMonitor * list Outcome) :=
  do r <- configure_metrics (alert_thresholds m)
            (zip metrics [cpu_line; memory_line; disk_line]);
  let m' := set_alert_thresholds m (fst r) in
  let toggle := lower toggle_line in
  let m'' :=
    if String.eqb toggle "y"
    then set_alerts_enabled m' (negb (alerts_enabled m'))
    else m' in
  ret (m'', snd r).

(** ** A runtime to evaluate the model on concrete inputs *)

Fixpoint digits_value (acc : Z) (s : string) : option Z :=
  match s with
  | EmptyString => Some acc
  | String c s' =>
      let n := nat_of_ascii c in
      if ((48 <=? n) && (n <=? 57))%nat
      then digits_value (10 * acc + Z.of_nat (n - 48))%Z s'
      else None
  end.

(** [float] restricted to unsigned decimal integers; the mean as the sum
    from the left divided by the length; the quotient of the two nearest
    floats. *)
Definition small_float_of_str (s : string) : option float :=
  match s with
  | EmptyString => None
  | _ => float_of_Z <$> digits_value 0 s
  end.

Definition small_mean (l : list float) : option float :=
  match l with
  | [] => None
  | _ :: _ => Some (fold_left PrimFloat.add l 0 / float_of_Z (Z.of_nat (length l)))%float
  end.

Definition small_truediv (a b : Z) : float := (float_of_Z a / float_of_Z b)%float.

Definition small_python : Python :=
  {| float_of_str := small_float_of_str;
     statistics_mean := small_mean;
     statistics_mean_nonempty := fun x l => ex_intro _ _ eq_refl;
     statistics_mean_empty := eq_refl;
     int_truediv := small_truediv |}.

(** ** Notions used in the statements *)

Definition measurement_of_Z (i : Z) : Measurement :=
  {| m_now := "2024-01-01 00:00:00";
     m_cpu := float_of_Z i;
     m_memory := (40%float, 3.25%float, 8%float);
     m_disk := (0%float, 0%float, 0%float);
     m_network := (i, (2 * i)%Z);
     m_connections := 4%Z |}.

Definition measurements (n : nat) : list Measurement :=
  map (fun i => measurement_of_Z (Z.of_nat i)) (seq 0 n).

(** The three keys [_check_alerts] subscripts are present. *)
Definition has_thresholds (t : gmap string float) : Prop :=
  is_Some (t !! "cpu") /\ is_Some (t !! "memory") /\ is_Some (t !! "disk").

(** The alert a metric contributes: one when its value is above the
    threshold, none otherwise. *)
Definition alert_if (mk : float -> Alert) (value threshold : float) : list Alert :=
  if float_gt value threshold then [mk value] else [].

(** A path with a null character in it. *)
Definition null_path : string := String "a" (String Ascii.zero "b").

(** A snapshot that has the given CPU value and zero elsewhere. *)
Definition snapshot_with_cpu (cpu : float) : SystemSnapshot :=
  mkSnapshot "2024-01-01 00:00:00" cpu 0 0 0 0 0 0 0 0 0.

(** The reading of the spec under which the call leaves the history alone. *)
Definition take_leaves_history (self : SystemMonitor) (m : Measurement) : Prop :=
  snapshots (fst (take_snapshot self m)) = snapshots self.

Definition empty_volume_host : Host :=
  {| has_statvfs := false;
     fs_encodes := fun _ => true;
     os_statvfs := fun _ => None;
     GetDiskFreeSpaceExW := fun _ => Some (0%Z, 0%Z) |}.

(** A host with [os.statvfs] as CPython has it, on a volume of 1000 blocks
    of 4096 bytes, 250 of them free. *)
Definition posix_host : Host :=
  {| has_statvfs := true;
     fs_encodes := fun _ => true;
     os_statvfs := fun _ =>
       Some (statvfs_attributes (mkStatvfs 4096 4096 1000 250 250 100 50 50 0 255 1));
     GetDiskFreeSpaceExW := fun _ => None |}.

Definition sample_connectivity : list (string * option float) :=
  [("google.com", Some 20%float); ("cloudflare.com", None);
   ("github.com", Some 40%float); ("stackoverflow.com", None)].

Definition silent_connectivity : list (string * option float) :=
  [("google.com", None); ("cloudflare.com", None);
   ("github.com", None); ("stackoverflow.com", None)].

(** What a probe returns for an attempt. *)
Definition ping_value (a : attempt) : option float :=
  match a with
  | Connected d => Some (float_of_Z d)
  | Failed _ => None
  end.

(** The entries of the probes made one after the other: each attempt starts
    at the clock reading at which the one before it ended. *)
Fixpoint sequential_probes (net : Network) (servers : list (string * Z)) (now : Z)
  : list (string * option float) :=
  match servers with
  | [] => []
  | server :: rest =>
      let a := net (fst server) 80%Z default_timeout now in
      (fst server, ping_value a) :: sequential_probes net rest (now + attempt_ms a)%Z
  end.


(** A network on which every attempt runs into its timeout. *)
Definition unreachable_net : Network :=
  fun _ _ timeout _ => Failed (1000 * timeout).

(** A network where the second host of the list does not answer. *)
Definition patchy_net : Network :=
  fun host _ timeout _ =>
    if String.eqb host "cloudflare.com" then Failed (1000 * timeout) else Connected 25.

Definition occurs (e : event) (t : list event) : bool := existsb (fun x => event_eqb x e) t.

Definition stop_pc_eqb (x y : stop_pc) : bool :=
  match x, y with
  | NotStopping, NotStopping | InJoin, InJoin
  | AfterJoin, AfterJoin | StopReturned, StopReturned => true
  | _, _ => false
  end.

(** What holds of the analyzer along every interleaving; [ended] tells
    whether the join has returned because the thread had ended. *)
Record invariant (ended : bool) (a : SystemAnalyzer) : Prop := mkInvariant {
  inv_called : occurs StopCalled (trace a) = negb (stop_pc_eqb (stopper a) NotStopping);
  inv_done : occurs StopDone (trace a) = stop_pc_eqb (stopper a) StopReturned;
  inv_flag : stopper a <> NotStopping -> running a = false;
  inv_cycle : monitor_thread a = InCycle ->
              appends_after StopCalled (trace a) = 0%nat
              /\ appends_after StopDone (trace a) = 0%nat;
  inv_called_once : (appends_after StopCalled (trace a) <= 1)%nat;
  inv_done_once : (appends_after StopDone (trace a) <= 1)%nat;
  inv_ended : ended = true ->
              (stopper a = AfterJoin \/ stopper a = StopReturned)
              /\ monitor_thread a = LoopDone
              /\ appends_after StopDone (trace a) = 0%nat
}.

Definition is_join_ended (act : action) : bool :=
  match act with
  | JoinThreadEnded => true
  | _ => false
  end.

(** The reading of the spec: once [stop_monitoring] has returned, the loop
    thread appends nothing more. *)
Definition no_append_after_stop (m : SystemMonitor) (schedule : list action) : Prop :=
  forall a, run (start_monitoring m NoFile) schedule = Some a ->
            appends_after StopDone (trace a) = 0%nat.

(** The loop enters a cycle; [stop_monitoring] is called, its join times out
    while the cycle is still collecting, and it saves and returns; the cycle
    then appends. *)
Definition late_cycle (m : Measurement) : list action :=
  [LoopStep m; StopBegins; JoinTimedOut; StopReturns "2024-01-01T00:00:02"; LoopStep m].

(** The loop completes a cycle and sleeps; [stop_monitoring] is called; the
    loop wakes, sees the flag and ends; the join returns at once. *)
Definition clean_stop (m : Measurement) : list action :=
  [LoopStep m; LoopStep m; StopBegins; LoopStep m; LoopStep m; JoinThreadEnded;
   StopReturns "2024-01-01T00:00:06"].

(** The reading of the spec for the case where no host answered: something
    is reported, and it is not a quality. *)
Definition reports_no_data (lines : list SummaryLine) : Prop :=
  lines <> [] /\ reported_qualities lines = [].

(** The reading of the spec for short histories: the analysis says that the
    data is insufficient. *)
Definition reports_insufficient_data (a : HistoricalAnalysis) : Prop :=
  a = NotEnoughData.

(** A loaded element the constructor refuses whatever its values are: not a
    mapping, a mapping with a key that is no field, or one that lacks a
    field. *)
Definition malformed_record (j : json) : bool :=
  match j with
  | JObject kw =>
      negb (forallb (fun k => existsb (String.eqb k) field_names) (map fst kw))
      || negb (forallb (fun f => bool_decide (is_Some (dict_get f kw))) field_names)
  | _ => true
  end.

(** The threshold a metric has after its prompt: the value typed when the
    line, stripped, is not empty, reads as a float and lies in (0, 100];
    the old one otherwise. *)
Definition threshold_after `{Python} (old : float) (line : string) : float :=
  if String.eqb (strip line) "" then old
  else match float_of_str (strip line) with
       | Some v => if valid_threshold v then v else old
       | None => old
       end.

(** Every threshold stored lies in (0, 100]. *)
Definition thresholds_valid (t : gmap string float) : Prop :=
  map_Forall (fun _ v => valid_threshold v = true) t.

(** The attempts [test_connectivity] makes, one after the other. *)
Fixpoint attempts_of (net : Network) (servers : list (string * Z)) (now : Z) : list attempt :=
  match servers with
  | [] => []
  | server :: rest =>
      let a := net (fst server) 80%Z default_timeout now in
      a :: attempts_of net rest (now + attempt_ms a)%Z
  end.

Definition is_connected (a : attempt) : bool :=
  match a with
  | Connected _ => true
  | Failed _ => false
  end.

(** The steps of the loop thread in a schedule. *)
Definition is_loop_step (act : action) : bool :=
  match act with
  | LoopStep _ => true
  | _ => false
  end.

Definition loop_steps (schedule : list action) : nat :=
  length (filter (fun act => is_loop_step act = true) schedule).

(** The steps the loop thread has left once the flag is down: a cycle under
    way is finished, slept on, and the test ends the loop. *)
Definition steps_left (pc : loop_pc) : nat :=
  match pc with
  | InCycle => 3
  | InSleep => 2
  | AtWhile => 1
  | LoopDone => 0
  end.


(** ** Reading the system ([_run_command] and the getters) *)

(** The exceptions of this part: those of [exn], and four more. *)
Inductive pyerror : Set :=
| Exn (e : exn)
| IndexError
| FileNotFoundError
| PermissionError
| OverflowError.

Definition outcome (A : Type) : Type := (pyerror + A)%type.

Definition bind_outcome {A B} (m : outcome A) (k : A -> outcome B) : outcome B :=
  match m with
  | inl e => inl e
  | inr a => k a
  end.

Notation "'perform' x <- m ; k" := (bind_outcome m (fun x => k))
  (at level 10, x pattern, m at level 100, k at level 200).

Definition lift {A} (r : result A) : outcome A :=
  match r with
  | inl e => inl (Exn e)
  | inr a => inr a
  end.

(** [int(s)] of Python, not part of the repository ([None]: ValueError). *)
Class PythonInt : Type := {
  int_of_str : string -> option Z
}.

Definition to_int `{PythonInt} (s : string) : outcome Z :=
  match int_of_str s with
  | Some n => inr n
  | None => inl (Exn ValueError)
  end.

Definition to_float `{Python} (s : string) : outcome float :=
  match float_of_str s with
  | Some x => inr x
  | None => inl (Exn ValueError)
  end.

Definition newline : ascii := ascii_of_nat 10.

(** [s.split(c)] for a separator of one character. *)
Fixpoint split_sep (sep : ascii) (s : string) : list string :=
  match s with
  | EmptyString => [EmptyString]
  | String c s' =>
      if Ascii.eqb c sep then EmptyString :: split_sep sep s'
      else match split_sep sep s' with
           | piece :: pieces => String c piece :: pieces
           | [] => [String c EmptyString]
           end
  end.

(** [s.split()]: the maximal runs without whitespace. *)
Fixpoint split_ws (s : string) : list string :=
  match s with
  | EmptyString => []
  | String c s' =>
      if isspace c then split_ws s'
      else match s' with
           | EmptyString => [String c EmptyString]
           | String c' _ =>
               if isspace c' then String c EmptyString :: split_ws s'
               else match split_ws s' with
                    | word :: words => String c word :: words
                    | [] => [String c EmptyString]
                    end
           end
  end.

(** [f.readlines()]: the lines with their terminators. *)
Fixpoint readlines (s : string) : list string :=
  match s with
  | EmptyString => []
  | String c s' =>
      if Ascii.eqb c newline then String c EmptyString :: readlines s'
      else match readlines s' with
           | line :: lines => String c line :: lines
           | [] => [String c EmptyString]
           end
  end.

(** [sub in s]. *)
Fixpoint contains (sub s : string) : bool :=
  String.prefix sub s
  || match s with
     | EmptyString => false
     | String _ s' => contains sub s'
     end.

(** [s.startswith(p)]. *)
Definition startswith (p s : string) : bool := String.prefix p s.

(** [s.replace(c, '')] for one character. *)
Fixpoint remove_char (c : ascii) (s : string) : string :=
  match s with
  | EmptyString => EmptyString
  | String c' s' => if Ascii.eqb c' c then remove_char c s' else String c' (remove_char c s')
  end.

(** [l[i]] for [i >= 0], and [l[-1]]. *)
Definition item {A} (l : list A) (i : nat) : outcome A :=
  match l !! i with
  | Some a => inr a
  | None => inl IndexError
  end.

Definition last_item {A} (l : list A) : outcome A :=
  match last l with
  | Some a => inr a
  | None => inl IndexError
  end.

(** How [subprocess.run] ends: the process completes with an output, runs
    into the timeout, or its program does not exist. *)
Inductive process : Set :=
| Completed (stdout : string)
| TimeoutExpired
| CommandMissing.

(** A path in the file system: nothing there, a file that cannot be opened
    (PermissionError), a file with its text. *)
Inductive file : Set :=
| Absent
| Unreadable
| Content (text : string).

(** The machine the monitor runs on.  [os_getloadavg] is [None] where
    [os.getloadavg] does not exist, [Some None] where it raises OSError,
    and the one-minute load otherwise.  [os_cpu_count] is the count the C
    library reports, an int of machine size, whose conversion to float is
    exact. *)
Record Machine : Type := mkMachine {
  subprocess_run : list string -> process;
  file_at : string -> file;
  os_cpu_count : option Z;
  os_getloadavg : option (option float);
  filesystem : Host
}.

(** [SystemMonitor._run_command]. *)
Definition _run_command (machine : Machine) (command : string) : string :=
  match subprocess_run machine (split_ws command) with
  | Completed stdout => strip stdout
  | TimeoutExpired | CommandMissing => EmptyString
  end.

(** [open(path).read()]. *)
Definition read_file (machine : Machine) (path : string) : outcome string :=
  match file_at machine path with
  | Absent => inl FileNotFoundError
  | Unreadable => inl PermissionError
  | Content text => inr text
  end.

(** [os.path.exists(path)]. *)
Definition path_exists (machine : Machine) (path : string) : bool :=
  match file_at machine path with
  | Absent => false
  | _ => true
  end.

(** [except (ValueError, IndexError, FileNotFoundError)]. *)
Definition catches_parse (e : pyerror) : bool :=
  match e with
  | Exn ValueError | IndexError | FileNotFoundError => true
  | _ => false
  end.

(** [min(a, b)] on floats: the first argument unless the second is below it. *)
Definition float_min (a b : float) : float :=
  if PrimFloat.ltb b a then b else a.

(** *** [get_cpu_usage] *)

(** The loop over the lines of wmic: the first line that mentions
    LoadPercentage decides. *)
Fixpoint scan_load_percentage `{Python} (lines : list string) : outcome (option float) :=
  match lines with
  | [] => inr None
  | line :: rest =>
      if contains "LoadPercentage" line then
        perform field <- item (split_sep "=" line) 1;
        perform value <- to_float field;
        inr (Some value)
      else scan_load_percentage rest
  end.

(** The loop over the lines of top: the first line that mentions CPU usage
    and has three parts decides. *)
Fixpoint scan_cpu_usage `{Python} (lines : list string) : outcome (option float) :=
  match lines with
  | [] => inr None
  | line :: rest =>
      if contains "CPU usage" line then
        let parts := split_sep "," line in
        if (3 <=? length parts)%nat then
          perform part <- item parts 2;
          perform before <- item (split_sep "%" part) 0;
          perform word <- last_item (split_ws (strip before));
          perform idle <- to_float word;
          inr (Some (100 - idle)%float)
        else scan_cpu_usage rest
      else scan_cpu_usage rest
  end.

(** [os.cpu_count() or 1]. *)
Definition cpu_count_or_1 (machine : Machine) : Z :=
  match os_cpu_count machine with
  | Some n => if (n =? 0)%Z then 1%Z else n
  | None => 1%Z
  end.

(** The body of the [try]: [Some] where it returns, [None] where it falls
    through to the fallback. *)
Definition cpu_usage_try `{Python} (self : SystemMonitor) (machine : Machine)
  : outcome (option float) :=
  if String.eqb (platform self) "windows" then
    scan_load_percentage
      (split_sep newline (_run_command machine "wmic cpu get loadpercentage /value"))
  else if path_exists machine "/proc/loadavg" then
    perform text <- read_file machine "/proc/loadavg";
    perform first <- item (split_ws text) 0;
    perform load <- to_float first;
    let cpu_count := cpu_count_or_1 machine in
    inr (Some (float_min 100 (load / float_of_Z cpu_count * 100)%float))
  else
    scan_cpu_usage (split_sep newline (_run_command machine "top -l 1 -n 0")).

(** The last line of the function. *)
Definition cpu_fallback (machine : Machine) : outcome float :=
  match os_getloadavg machine with
  | Some (Some load) => inr (float_min 100 (load * 20)%float)
  | Some None => inl (Exn OSError)
  | None => inr 0%float
  end.

Definition get_cpu_usage `{Python} (self : SystemMonitor) (machine : Machine) : outcome float :=
  match cpu_usage_try self machine with
  | inr (Some value) => inr value
  | inr None => cpu_fallback machine
  | inl e => if catches_parse e then cpu_fallback machine else inl e
  end.

(** *** [get_memory_usage] *)

(** [a / b] on the ints read from text, which have any size: the quotient is
    rounded to the nearest float, and OverflowError is raised where that is
    beyond the largest one, that is from [2^1024 - 2^970] on. *)
Definition quotient_overflows (a b : Z) : bool :=
  ((2 ^ 1024 - 2 ^ 970) * Z.abs b <=? Z.abs a)%Z.

Definition int_div `{Python} (a b : Z) : outcome float :=
  if (b =? 0)%Z then inl (Exn ZeroDivisionError)
  else if quotient_overflows a b then inl OverflowError
  else inr (int_truediv a b).

(** The two loops of the Windows branch: every line that mentions the key
    assigns, the last one stays. *)
Fixpoint scan_wmic_value `{PythonInt} (key : string) (scale : Z) (lines : list string) (value : Z)
  : outcome Z :=
  match lines with
  | [] => inr value
  | line :: rest =>
      if contains key line then
        perform field <- item (split_sep "=" line) 1;
        perform n <- to_int field;
        scan_wmic_value key scale rest (n * scale)%Z
      else scan_wmic_value key scale rest value
  end.

(** The loop over /proc/meminfo: [(mem_total, mem_available)]. *)
Fixpoint scan_meminfo `{PythonInt} (lines : list string) (mem_total mem_available : Z)
  : outcome (Z * Z) :=
  match lines with
  | [] => inr (mem_total, mem_available)
  | line :: rest =>
      if startswith "MemTotal:" line then
        perform field <- item (split_ws line) 1;
        perform n <- to_int field;
        scan_meminfo rest (n * 1024)%Z mem_available
      else if startswith "MemAvailable:" line then
        perform field <- item (split_ws line) 1;
        perform n <- to_int field;
        scan_meminfo rest mem_total (n * 1024)%Z
      else scan_meminfo rest mem_total mem_available
  end.

(** [int(line.split()[i].replace('.', ''))]. *)
Definition pages_field `{PythonInt} (line : string) (i : nat) : outcome Z :=
  perform field <- item (split_ws line) i;
  to_int (remove_char "." field).

(** The loop over the lines of vm_stat:
    [(pages_free, pages_active, pages_inactive, pages_wired)]. *)
Fixpoint scan_vm_stat `{PythonInt} (lines : list string)
    (pages_free pages_active pages_inactive pages_wired : Z) : outcome (Z * Z * Z * Z) :=
  match lines with
  | [] => inr (pages_free, pages_active, pages_inactive, pages_wired)
  | line :: rest =>
      if contains "free:" line then
        perform n <- pages_field line 2;
        scan_vm_stat rest n pages_active pages_inactive pages_wired
      else if contains "active:" line then
        perform n <- pages_field line 2;
        scan_vm_stat rest pages_free n pages_inactive pages_wired
      else if contains "inactive:" line then
        perform n <- pages_field line 2;
        scan_vm_stat rest pages_free pages_active n pages_wired
      else if contains "wired down:" line then
        perform n <- pages_field line 3;
        scan_vm_stat rest pages_free pages_active pages_inactive n
      else scan_vm_stat rest pages_free pages_active pages_inactive pages_wired
  end.

Definition page_size : Z := 4096.

(** [(percent, used_gb, total_gb)] from a used and a total count, as the
    three branches compute it. *)
Definition memory_figures `{Python} (used total : Z) : outcome (float * float * float) :=
  perform total_gb <- int_div total (1024 ^ 3);
  perform used_gb <- int_div used (1024 ^ 3);
  perform ratio <- int_div used total;
  inr ((ratio * 100)%float, used_gb, total_gb).

(** The body of the [try]: [Some] where it returns, [None] where it falls
    through to the default. *)
Definition memory_usage_try `{Python} `{PythonInt} (self : SystemMonitor) (machine : Machine)
  : outcome (option (float * float * float)) :=
  if String.eqb (platform self) "windows" then
    let total_output :=
      _run_command machine "wmic computersystem get TotalPhysicalMemory /value" in
    let avail_output :=
      _run_command machine "wmic OS get AvailablePhysicalMemory /value" in
    perform total_bytes <-
      scan_wmic_value "TotalPhysicalMemory" 1 (split_sep newline total_output) 0;
    perform avail_bytes <-
      scan_wmic_value "AvailablePhysicalMemory" 1024 (split_sep newline avail_output) 0;
    let used_bytes := (total_bytes - avail_bytes)%Z in
    perform figures <- memory_figures used_bytes total_bytes;
    inr (Some figures)
  else if path_exists machine "/proc/meminfo" then
    perform meminfo <- read_file machine "/proc/meminfo";
    perform totals <- scan_meminfo (split_sep newline meminfo) 0 0;
    let '(mem_total, mem_available) := totals in
    if (mem_total >? 0)%Z then
      let used_bytes := (mem_total - mem_available)%Z in
      perform figures <- memory_figures used_bytes mem_total;
      inr (Some figures)
    else inr None
  else
    let output := _run_command machine "vm_stat" in
    perform pages <- scan_vm_stat (split_sep newline output) 0 0 0 0;
    let '(pages_free, pages_active, pages_inactive, pages_wired) := pages in
    let total_pages := (pages_free + pages_active + pages_inactive + pages_wired)%Z in
    let used_pages := (pages_active + pages_inactive + pages_wired)%Z in
    if (total_pages >? 0)%Z then
      perform total_gb <- int_div (total_pages * page_size) (1024 ^ 3);
      perform used_gb <- int_div (used_pages * page_size) (1024 ^ 3);
      perform ratio <- int_div used_pages total_pages;
      inr (Some ((ratio * 100)%float, used_gb, total_gb))
    else inr None.

Definition get_memory_usage `{Python} `{PythonInt} (self : SystemMonitor) (machine : Machine)
  : outcome (float * float * float) :=
  match memory_usage_try self machine with
  | inr (Some figures) => inr figures
  | inr None => inr (0%float, 0%float, 0%float)
  | inl e =>
      if catches_parse e then inr (0%float, 0%float, 0%float) else inl e
  end.

(** *** [_get_network_stats] and [get_active_connections] *)

(** The inner [try] of a line, on the counters [(bytes_sent, bytes_recv)]:
    the received count is added first, then the sent count; a field that
    does not read as an int (ValueError) or is not there (IndexError) ends
    the line, what was added before it staying. *)
Definition add_counters (received sent : outcome Z) (stats : Z * Z) : Z * Z :=
  match received with
  | inl _ => stats
  | inr r =>
      match sent with
      | inl _ => (fst stats, (snd stats + r)%Z)
      | inr s => ((fst stats + s)%Z, (snd stats + r)%Z)
      end
  end.

Definition int_item `{PythonInt} (parts : list string) (i : nat) : outcome Z :=
  perform field <- item parts i; to_int field.

Definition windows_counters `{PythonInt} (stats : Z * Z) (line : string) : Z * Z :=
  if String.eqb (strip line) "" then stats
  else
    let parts := split_sep "," line in
    if (3 <=? length parts)%nat
    then add_counters (int_item parts 1) (int_item parts 2) stats
    else stats.

Definition linux_counters `{PythonInt} (stats : Z * Z) (line : string) : Z * Z :=
  if contains ":" line then
    let parts := split_ws line in
    if (10 <=? length parts)%nat
    then add_counters (int_item parts 1) (int_item parts 9) stats
    else stats
  else stats.

Definition macos_counters `{PythonInt} (stats : Z * Z) (line : string) : Z * Z :=
  let parts := split_ws line in
  if (7 <=? length parts)%nat
  then add_counters (int_item parts 6)
         (if (9 <? length parts)%nat then int_item parts 9 else inr 0%Z) stats
  else stats.

(** [(bytes_sent, bytes_recv)]; an unreadable /proc/net/dev is caught and
    leaves the zeros. *)
Definition _get_network_stats `{PythonInt} (self : SystemMonitor) (machine : Machine) : Z * Z :=
  let stats := (0%Z, 0%Z) in
  if String.eqb (platform self) "windows" then
    let output := _run_command machine
      "wmic path Win32_PerfRawData_Tcpip_NetworkInterface get BytesSentPerSec,BytesReceivedPerSec /format:csv" in
    fold_left windows_counters (drop 1 (split_sep newline output)) stats
  else if path_exists machine "/proc/net/dev" then
    match read_file machine "/proc/net/dev" with
    | inr text => fold_left linux_counters (drop 2 (readlines text)) stats
    | inl _ => stats
    end
  else
    let output := _run_command machine "netstat -ib" in
    fold_left macos_counters (drop 1 (split_sep newline output)) stats.

Definition get_active_connections (machine : Machine) : Z :=
  let output := _run_command machine "netstat -an" in
  Z.of_nat (length (filter (fun line => contains "ESTABLISHED" line = true)
                      (split_sep newline output))).

(** *** [take_snapshot] on a machine *)

(** The five calls at the head of [take_snapshot], in their order, and the
    time read for the timestamp. *)
Definition collect `{Python} `{PythonInt} (self : SystemMonitor) (machine : Machine) (now : string)
  : outcome Measurement :=
  perform cpu <- get_cpu_usage self machine;
  perform memory <- get_memory_usage self machine;
  perform disk <- lift (get_disk_usage self (filesystem machine) None);
  let network := _get_network_stats self machine in
  let connections := get_active_connections machine in
  inr {| m_now := now;
         m_cpu := cpu;
         m_memory := memory;
         m_disk := disk;
         m_network := network;
         m_connections := connections |}.

(** [take_snapshot] with the getters run on the machine: an exception out
    of a getter leaves the monitor as it was. *)
Definition take_snapshot_on `{Python} `{PythonInt}
    (self : SystemMonitor) (machine : Machine) (now : string)
  : SystemMonitor * outcome (SystemSnapshot * list Alert) :=
  match collect self machine now with
  | inl e => (self, inl e)
  | inr m => (fst (take_snapshot self m), lift (snd (take_snapshot self m)))
  end.

(** *** Machines to evaluate the model on *)

Definition small_int : PythonInt :=
  {| int_of_str := fun s =>
       match strip s with
       | EmptyString => None
       | digits => digits_value 0 digits
       end |}.

Definition line_feed : string := String newline EmptyString.

(** A Windows machine on which no command can be run. *)
Definition bare_windows : Machine :=
  {| subprocess_run := fun _ => CommandMissing;
     file_at := fun _ => Absent;
     os_cpu_count := Some 4%Z;
     os_getloadavg := None;
     filesystem := empty_volume_host |}.

(** A Linux machine: four cores, a load of 1.5, 16 GB of which 4 GB are
    available, and one interface. *)
Definition small_linux : Machine :=
  {| subprocess_run := fun args =>
       match args with
       | ["netstat"; "-an"] =>
           Completed ("tcp 0 0 10.0.0.2:22 10.0.0.9:50122 ESTABLISHED" ++ line_feed
                      ++ "tcp 0 0 0.0.0.0:80 0.0.0.0:* LISTEN" ++ line_feed
                      ++ "tcp 0 0 10.0.0.2:443 10.0.0.7:41000 ESTABLISHED")
       | _ => CommandMissing
       end;
     file_at := fun path =>
       if String.eqb path "/proc/loadavg" then Content "6 1 1 2/345 6789"
       else if String.eqb path "/proc/meminfo" then
         Content ("MemTotal:       16777216 kB" ++ line_feed
                  ++ "MemFree:         1048576 kB" ++ line_feed
                  ++ "MemAvailable:    4194304 kB" ++ line_feed)
       else if String.eqb path "/proc/net/dev" then
         Content ("Inter-|   Receive                |  Transmit" ++ line_feed
                  ++ " face |bytes packets errs drop fifo frame compressed multicast|bytes packets" ++ line_feed
                  ++ "  eth0: 1000 10 0 0 0 0 0 0 2000 20 0 0 0 0 0 0" ++ line_feed
                  ++ "    lo: 300 3 0 0 0 0 0 0 300 3 0 0 0 0 0 0" ++ line_feed)
       else Absent;
     os_cpu_count := Some 4%Z;
     os_getloadavg := Some (Some 1.5%float);
     filesystem := posix_host |}.

(** * Properties *)

(** ** Floats *)

Lemma SFcompare_Eq_sym (a b : spec_float) :
  SFcompare a b = Some Eq -> SFcompare b a = Some Eq.
Proof.
  destruct a as [sa|sa| |sa ma ea], b as [sb|sb| |sb mb eb]; simpl;
    try discriminate; try reflexivity;
    try (destruct sa; discriminate); try (destruct sb; discriminate).
  - destruct sa, sb; try discriminate; reflexivity.
  - destruct sa, sb; try discriminate;
      (destruct (Z.compare ea eb) eqn:He; try discriminate;
       apply Z.compare_eq in He; subst eb; intros Hm;
       injection Hm as Hm;
       assert (Hc : Pos.compare ma mb = Eq)
         by (unfold Pos.compare; destruct (Pos.compare_cont Eq ma mb);
             simpl in Hm; congruence);
       apply Pos.compare_eq in Hc; subst mb;
       rewrite Z.compare_refl;
       change (Pos.compare_cont Eq ma ma) with (Pos.compare ma ma);
       rewrite Pos.compare_refl; reflexivity).
Qed.

(** IEEE equality excludes strict order, either way round. *)
Lemma float_eq_not_gt (a b : float) :
  PrimFloat.eqb a b = true -> float_gt a b = false.
Proof.
  unfold float_gt. rewrite FloatAxioms.eqb_spec, FloatAxioms.ltb_spec. unfold SFeqb, SFltb.
  destruct (SFcompare (Prim2SF a) (Prim2SF b)) as [[]|] eqn:H; try discriminate.
  intros _. rewrite (SFcompare_Eq_sym _ _ H). reflexivity.
Qed.

(** ** The history buffer *)

Lemma lastn_length {A} (n : nat) (xs : list A) :
  length (lastn n xs) = Nat.min n (length xs).
Proof. unfold lastn. rewrite length_drop. lia. Qed.

Lemma lastn_all {A} (n : nat) (xs : list A) :
  (length xs <= n)%nat -> lastn n xs = xs.
Proof.
  intros H. unfold lastn.
  replace (length xs - n)%nat with 0%nat by lia. reflexivity.
Qed.

Lemma lastn_snoc_lastn {A} (n : nat) (xs : list A) (x : A) :
  lastn n (lastn n xs ++ [x]) = lastn n (xs ++ [x]).
Proof.
  destruct (decide (length xs <= n)%nat) as [Hle|Hgt].
  - rewrite (lastn_all n xs Hle). reflexivity.
  - unfold lastn at 1 3. rewrite !length_app, lastn_length. simpl.
    unfold lastn. destruct n as [|n].
    + rewrite !drop_ge by (rewrite ?length_app, ?length_drop; simpl; lia).
      reflexivity.
    + rewrite !drop_app_le by (rewrite ?length_drop; lia).
      rewrite drop_drop. f_equal. f_equal. lia.
Qed.

(** The history after one call, whatever the alert check does. *)
Lemma take_snapshot_history (self : SystemMonitor) (m : Measurement) :
  snapshots (fst (take_snapshot self m)) = lastn 100 (snapshots self ++ [build_snapshot m]).
Proof.
  unfold take_snapshot. cbv zeta.
  assert (Hkept :
    (if (100 <? length (snapshots self ++ [build_snapshot m]))%nat
     then lastn 100 (snapshots self ++ [build_snapshot m])
     else snapshots self ++ [build_snapshot m])
    = lastn 100 (snapshots self ++ [build_snapshot m])).
  { destruct (Nat.ltb_spec 100 (length (snapshots self ++ [build_snapshot m])));
      [reflexivity | symmetry; apply lastn_all; lia]. }
  rewrite Hkept.
  destruct (alerts_enabled _); reflexivity.
Qed.

Lemma take_snapshots_snoc (self : SystemMonitor) (ms : list Measurement) (m : Measurement) :
  take_snapshots self (ms ++ [m]) = fst (take_snapshot (take_snapshots self ms) m).
Proof. unfold take_snapshots. rewrite fold_left_app. reflexivity. Qed.

(** The history after any number of calls is the last 100 entries of what
    was there followed by what was appended. *)
Lemma take_snapshots_history (self : SystemMonitor) (ms : list Measurement) :
  (length (snapshots self) <= 100)%nat ->
  snapshots (take_snapshots self ms)
  = lastn 100 (snapshots self ++ map build_snapshot ms).
Proof.
  intros Hlen. induction ms as [|m ms IH] using rev_ind.
  - simpl. rewrite app_nil_r. symmetry. apply lastn_all. exact Hlen.
  - rewrite take_snapshots_snoc, take_snapshot_history, IH.
    rewrite map_app, app_assoc. simpl. apply lastn_snoc_lastn.
Qed.

(** C1. Starting from an empty history, after any sequence of calls of
    [take_snapshot] the history has at most 100 entries and is the last 100
    snapshots appended, in the order of appending; after more than 100 calls
    it is exactly the snapshots of the last 100 calls, the oldest dropped. *)
Theorem history_bounded_fifo (self : SystemMonitor) (ms : list Measurement) :
  snapshots self = [] ->
  let history := snapshots (take_snapshots self ms) in
  (length history <= 100)%nat /\
  history = lastn 100 (map build_snapshot ms) /\
  ((100 < length ms)%nat ->
   length history = 100%nat /\
   history = map build_snapshot (drop (length ms - 100) ms)).
Proof.
  intros Hempty history.
  assert (Hhist : history = lastn 100 (map build_snapshot ms)).
  { subst history. rewrite take_snapshots_history by (rewrite Hempty; simpl; lia).
    rewrite Hempty. reflexivity. }
  split; [|split].
  - rewrite Hhist, lastn_length. lia.
  - exact Hhist.
  - intros Hlong. rewrite Hhist. split.
    + rewrite lastn_length, length_map. lia.
    + unfold lastn. rewrite length_map. unfold drop. rewrite <- skipn_map. reflexivity.
Qed.

Lemma history_bounded_fifo_witness :
  let self := SystemMonitor_init "linux" in
  let ms := measurements 103 in
  let history := snapshots (take_snapshots self ms) in
  snapshots self = [] /\
  (100 < length ms)%nat /\
  (length history <= 100)%nat /\
  history = lastn 100 (map build_snapshot ms) /\
  length history = 100%nat /\
  history = map build_snapshot (drop (length ms - 100) ms).
Proof.
  intros self ms history.
  assert (Hempty : snapshots self = []) by reflexivity.
  assert (Hlong : (100 < length ms)%nat) by (vm_compute; lia).
  split; [exact Hempty|]. split; [exact Hlong|].
  pose proof (history_bounded_fifo self ms Hempty) as H.
  destruct H as (Hle & Hlast & Hfifo).
  split; [exact Hle|]. split; [exact Hlast|]. exact (Hfifo Hlong).
Defined.

(** ** Alert evaluation *)

Lemma check_alerts_eval (self : SystemMonitor) (s : SystemSnapshot) (tc tm td : float) :
  alert_thresholds self !! "cpu" = Some tc ->
  alert_thresholds self !! "memory" = Some tm ->
  alert_thresholds self !! "disk" = Some td ->
  _check_alerts self s
  = inr (alert_if HighCpu (cpu_percent s) tc
         ++ alert_if HighMemory (memory_percent s) tm
         ++ alert_if HighDisk (disk_percent s) td).
Proof.
  intros Hc Hm Hd. unfold _check_alerts, subscript, alert_if.
  rewrite Hc, Hm, Hd. simpl.
  destruct (float_gt (cpu_percent s) tc), (float_gt (memory_percent s) tm),
    (float_gt (disk_percent s) td); reflexivity.
Qed.

Lemma check_alerts_returns (self : SystemMonitor) (s : SystemSnapshot) :
  has_thresholds (alert_thresholds self) ->
  exists alerts, _check_alerts self s = inr alerts.
Proof.
  intros ([tc Hc] & [tm Hm] & [td Hd]).
  eexists. apply (check_alerts_eval self s tc tm td Hc Hm Hd).
Qed.

Lemma default_thresholds_present : has_thresholds default_thresholds.
Proof. repeat split; eexists; reflexivity. Qed.

(** C3. With a threshold for each of cpu, memory and disk, [_check_alerts]
    produces, in the order cpu, memory, disk, one alert for each metric whose
    value is strictly above its threshold and nothing for the others; a
    value equal to its threshold produces nothing; the result does not
    depend on the history, so evaluating again yields the alerts again.
    With the default thresholds, cpu=85 gives exactly the cpu alert and
    cpu=50 none. *)
Theorem check_alerts_strict_ordered
    (self : SystemMonitor) (s : SystemSnapshot) (tc tm td : float) :
  alert_thresholds self !! "cpu" = Some tc ->
  alert_thresholds self !! "memory" = Some tm ->
  alert_thresholds self !! "disk" = Some td ->
  exists alerts,
    _check_alerts self s = inr alerts
    /\ alerts
       = (if PrimFloat.ltb tc (cpu_percent s) then [HighCpu (cpu_percent s)] else [])
         ++ (if PrimFloat.ltb tm (memory_percent s) then [HighMemory (memory_percent s)] else [])
         ++ (if PrimFloat.ltb td (disk_percent s) then [HighDisk (disk_percent s)] else [])
    /\ (PrimFloat.eqb (cpu_percent s) tc = true -> forall v, ~ In (HighCpu v) alerts)
    /\ (PrimFloat.eqb (memory_percent s) tm = true -> forall v, ~ In (HighMemory v) alerts)
    /\ (PrimFloat.eqb (disk_percent s) td = true -> forall v, ~ In (HighDisk v) alerts)
    /\ (forall history, _check_alerts (set_snapshots self history) s = inr alerts)
    /\ _check_alerts (set_alert_thresholds self default_thresholds) (snapshot_with_cpu 85)
       = inr [HighCpu 85]
    /\ _check_alerts (set_alert_thresholds self default_thresholds) (snapshot_with_cpu 50)
       = inr [].
Proof.
  intros Hc Hm Hd. eexists. split; [apply (check_alerts_eval self s tc tm td Hc Hm Hd)|].
  unfold alert_if, float_gt.
  split; [reflexivity|].
  split; [|split; [|split; [|split; [|split]]]].
  - intros E v. apply float_eq_not_gt in E. unfold float_gt in E. rewrite E.
    destruct (PrimFloat.ltb tm _), (PrimFloat.ltb td _); simpl; intuition discriminate.
  - intros E v. apply float_eq_not_gt in E. unfold float_gt in E. rewrite E.
    destruct (PrimFloat.ltb tc _), (PrimFloat.ltb td _); simpl; intuition discriminate.
  - intros E v. apply float_eq_not_gt in E. unfold float_gt in E. rewrite E.
    destruct (PrimFloat.ltb tc _), (PrimFloat.ltb tm _); simpl; intuition discriminate.
  - intros history.
    apply (check_alerts_eval (set_snapshots self history) s tc tm td Hc Hm Hd).
  - reflexivity.
  - reflexivity.
Qed.

Lemma check_alerts_strict_ordered_witness :
  let self := SystemMonitor_init "linux" in
  let s := {| timestamp := "2024-01-01 00:00:00";
              cpu_percent := 85; memory_percent := 85;
              memory_used_gb := 6.5; memory_total_gb := 8;
              disk_percent := 95; disk_used_gb := 190; disk_total_gb := 200;
              network_bytes_sent := 0; network_bytes_recv := 0;
              active_connections := 0 |} in
  alert_thresholds self !! "cpu" = Some 80%float
  /\ alert_thresholds self !! "memory" = Some 85%float
  /\ alert_thresholds self !! "disk" = Some 90%float
  /\ _check_alerts self s = inr [HighCpu 85; HighDisk 95].
Proof.
  intros self s. repeat (split; [reflexivity|]).
  destruct (check_alerts_strict_ordered self s 80 85 90 eq_refl eq_refl eq_refl)
    as (alerts & Hcheck & Halerts & _).
  rewrite Hcheck, Halerts. reflexivity.
Defined.

(** ** What a call of [take_snapshot] changes *)

Lemma take_snapshot_changes_history :
  ~ take_leaves_history (SystemMonitor_init "linux") (measurement_of_Z 1).
Proof. unfold take_leaves_history. vm_compute. discriminate. Qed.

Lemma last_lastn_snoc {A} (n : nat) (xs : list A) (x : A) :
  last (lastn (S n) (xs ++ [x])) = Some x.
Proof.
  unfold lastn. rewrite length_app. simpl.
  rewrite drop_app_le by lia. apply last_snoc.
Qed.

(** C2 (amended). [take_snapshot] returns the snapshot assembled from what
    the getters measured and appends it to the history, which keeps its last
    100 entries; the thresholds, the alert switch and the platform are
    unchanged. *)
Theorem take_snapshot_appends (self : SystemMonitor) (m : Measurement) :
  has_thresholds (alert_thresholds self) ->
  (exists alerts, snd (take_snapshot self m) = inr (build_snapshot m, alerts))
  /\ snapshots (fst (take_snapshot self m))
     = lastn 100 (snapshots self ++ [build_snapshot m])
  /\ last (snapshots (fst (take_snapshot self m))) = Some (build_snapshot m)
  /\ alert_thresholds (fst (take_snapshot self m)) = alert_thresholds self
  /\ alerts_enabled (fst (take_snapshot self m)) = alerts_enabled self
  /\ platform (fst (take_snapshot self m)) = platform self.
Proof.
  intros Hth. split; [|split; [|split]].
  - unfold take_snapshot. cbv zeta.
    destruct (alerts_enabled _); simpl; [|eexists; reflexivity].
    match goal with
    | |- context [_check_alerts ?s ?x] =>
        destruct (check_alerts_returns s x Hth) as [alerts Ha]; rewrite Ha
    end.
    exists alerts. reflexivity.
  - apply take_snapshot_history.
  - rewrite take_snapshot_history. apply last_lastn_snoc.
  - unfold take_snapshot. cbv zeta.
    change (alerts_enabled (set_snapshots self _)) with (alerts_enabled self).
    destruct (alerts_enabled self) eqn:E; simpl; repeat split; exact E.
Qed.

Lemma take_snapshot_appends_witness :
  let self := SystemMonitor_init "linux" in
  let m := measurement_of_Z 85 in
  has_thresholds (alert_thresholds self)
  /\ (exists alerts, snd (take_snapshot self m) = inr (build_snapshot m, alerts))
  /\ snapshots (fst (take_snapshot self m)) = [build_snapshot m].
Proof.
  intros self m.
  assert (Hth : has_thresholds (alert_thresholds self))
    by (repeat split; eexists; reflexivity).
  split; [exact Hth|].
  destruct (take_snapshot_appends self m Hth) as (Hret & Hhist & _).
  split; [exact Hret | exact Hhist].
Defined.

(** ** Disk usage *)

Lemma truediv_nonzero `{Python} (a b : Z) :
  b <> 0%Z -> truediv a b = inr (int_truediv a b).
Proof.
  intros Hb. unfold truediv. destruct (Z.eqb_spec b 0); [contradiction | reflexivity].
Qed.

(** Getting the byte counts raises nothing but what the handler catches,
    and the ValueError of [os.statvfs] for a path it refuses. *)
Lemma disk_bytes_raises_any (host : Host) (path : string) (e : exn) :
  disk_bytes host path = inl e ->
  catches_os_attribute e = true
  \/ (e = ValueError /\ has_statvfs host = true /\ path_refused host path = true).
Proof.
  unfold disk_bytes, statvfs_call, getattr.
  destruct (has_statvfs host).
  - destruct (path_refused host path); cbn [bind ret raise];
      [intros [= <-]; right; repeat split|].
    destruct (os_statvfs host path) as [st|]; cbn [bind ret raise];
      [|intros [= <-]; left; reflexivity].
    destruct (st "f_frsize"); cbn [bind ret raise]; [|intros [= <-]; left; reflexivity].
    destruct (st "f_blocks"); cbn [bind ret raise]; [|intros [= <-]; left; reflexivity].
    destruct (st "f_available"); cbn [bind ret raise]; [|intros [= <-]; left; reflexivity].
    discriminate.
  - destruct (GetDiskFreeSpaceExW host path); cbn [bind ret raise];
      [discriminate | intros [= <-]; left; reflexivity].
Qed.

Lemma disk_bytes_raises (host : Host) (path : string) (e : exn) :
  path_refused host path = false ->
  disk_bytes host path = inl e -> catches_os_attribute e = true.
Proof.
  intros Hpath Hb.
  destruct (disk_bytes_raises_any host path e Hb) as [Hc|(_ & _ & Hnull)];
    [exact Hc | congruence].
Qed.

Lemma disk_bytes_refused_path (host : Host) (path : string) :
  has_statvfs host = true -> path_refused host path = true ->
  disk_bytes host path = inl ValueError.
Proof.
  intros Hs Hnull. unfold disk_bytes, statvfs_call. rewrite Hs, Hnull. reflexivity.
Qed.

(** The default path is taken on every host. *)
Lemma default_path_accepted (self : SystemMonitor) (host : Host) :
  path_refused host (default_path self None) = false.
Proof.
  unfold default_path. destruct (String.eqb (platform self) "windows"); reflexivity.
Qed.

(** A null character makes a path refused on every host. *)
Lemma null_refused (host : Host) (path : string) :
  embedded_null path = true -> path_refused host path = true.
Proof. intros Hnull. unfold path_refused. rewrite Hnull. apply orb_true_r. Qed.

(** The rest of the body, once the byte counts are there. *)
Lemma disk_usage_try_of_bytes `{Python} (host : Host) (path : string) (total free used : Z) :
  disk_bytes host path = inr (total, free, used) ->
  disk_usage_try host path
  = inr (if (total >? 0)%Z then (int_truediv used total * 100)%float else 0%float,
         int_truediv used (1024 ^ 3),
         int_truediv total (1024 ^ 3)).
Proof.
  intros Hb. unfold disk_usage_try. rewrite Hb.
  cbv beta iota zeta delta [bind ret fst snd].
  rewrite !(truediv_nonzero _ (1024 ^ 3)) by discriminate.
  destruct (Z.gtb_spec total 0) as [Hpos|Hle]; [|reflexivity].
  rewrite truediv_nonzero by lia. reflexivity.
Qed.

Lemma get_disk_usage_default `{Python}
    (self : SystemMonitor) (host : Host) (path : option string) (e : exn) :
  path_refused host (default_path self path) = false ->
  disk_bytes host (default_path self path) = inl e ->
  get_disk_usage self host path = inr (0%float, 0%float, 0%float).
Proof.
  intros Hpath Hb. unfold get_disk_usage, disk_usage_try. rewrite Hb.
  cbn [bind try_except]. rewrite (disk_bytes_raises _ _ _ Hpath Hb). reflexivity.
Qed.

Lemma get_disk_usage_refused_path `{Python}
    (self : SystemMonitor) (host : Host) (path : option string) :
  has_statvfs host = true ->
  path_refused host (default_path self path) = true ->
  get_disk_usage self host path = inl ValueError.
Proof.
  intros Hs Hnull. unfold get_disk_usage, disk_usage_try.
  rewrite (disk_bytes_refused_path _ _ Hs Hnull). reflexivity.
Qed.

Lemma os_query_fails_raises (host : Host) (path : string) :
  path_refused host path = false ->
  os_query_fails host path -> exists e, disk_bytes host path = inl e.
Proof.
  unfold os_query_fails, disk_bytes, statvfs_call. intros ->.
  destruct (has_statvfs host); intros ->; eexists; reflexivity.
Qed.

(** The object CPython returns has no attribute [f_available] (the count of
    blocks available is [f_bavail]): where [os.statvfs] exists and returns
    such an object, the function returns its default. *)
Lemma statvfs_has_no_f_available (st : statvfs_result) :
  getattr (statvfs_attributes st) "f_available" = inl AttributeError.
Proof. reflexivity. Qed.

Lemma get_disk_usage_statvfs `{Python}
    (self : SystemMonitor) (host : Host) (path : option string) (st : statvfs_result) :
  has_statvfs host = true ->
  path_refused host (default_path self path) = false ->
  os_statvfs host (default_path self path) = Some (statvfs_attributes st) ->
  get_disk_usage self host path = inr (0%float, 0%float, 0%float).
Proof.
  intros Hs Hpath Hq.
  apply (get_disk_usage_default self host path AttributeError Hpath).
  unfold disk_bytes, statvfs_call. rewrite Hs, Hpath, Hq. reflexivity.
Qed.

Example get_disk_usage_posix :
  @get_disk_usage small_python (SystemMonitor_init "linux") posix_host None
  = inr (0%float, 0%float, 0%float).
Proof. reflexivity. Qed.

(** A path with a null character on a host that has [os.statvfs]: the
    ValueError is not caught. *)
Lemma null_path_raises_value_error :
  @get_disk_usage small_python (SystemMonitor_init "linux") posix_host (Some null_path)
  = inl ValueError.
Proof. reflexivity. Qed.

(** C10 (amended). [get_disk_usage] raises nothing but the ValueError of
    [os.statvfs] for a path it refuses (an embedded null character, or text
    that does not encode), which its handler does not catch; the body of
    its [try] never raises ZeroDivisionError, since the percentage is only
    divided out when the total is positive.  For every path that is not
    refused, the default one included, and every host it returns: when the
    reported total is 0 the percentage returned is 0; when the OS query
    fails the result is (0.0, 0.0, 0.0).  For a refused path, as any with
    a null character is, it raises ValueError on a host that has
    [os.statvfs]. *)
Theorem get_disk_usage_guarded `{Python}
    (self : SystemMonitor) (host : Host) (path : option string) :
  (forall e, get_disk_usage self host path = inl e ->
             e = ValueError /\ has_statvfs host = true
             /\ path_refused host (default_path self path) = true)
  /\ disk_usage_try host (default_path self path) <> inl ZeroDivisionError
  /\ (path_refused host (default_path self path) = false ->
      (exists usage, get_disk_usage self host path = inr usage)
      /\ (reported_total host (default_path self path) = Some 0%Z ->
          exists used_gb total_gb,
            get_disk_usage self host path = inr (0%float, used_gb, total_gb))
      /\ (os_query_fails host (default_path self path) ->
          get_disk_usage self host path = inr (0%float, 0%float, 0%float)))
  /\ (path = None -> exists usage, get_disk_usage self host path = inr usage)
  /\ (has_statvfs host = true ->
      path_refused host (default_path self path) = true
      \/ embedded_null (default_path self path) = true ->
      get_disk_usage self host path = inl ValueError).
Proof.
  assert (Hreturns : path_refused host (default_path self path) = false ->
                     exists usage, get_disk_usage self host path = inr usage).
  { intros Hpath.
    destruct (disk_bytes host (default_path self path)) as [e|[[total free] used]] eqn:Hb.
    - eexists. apply (get_disk_usage_default self host path e Hpath Hb).
    - unfold get_disk_usage. rewrite (disk_usage_try_of_bytes host _ total free used Hb).
      eexists. reflexivity. }
  split; [|split; [|split; [|split]]].
  - intros e He.
    destruct (disk_bytes host (default_path self path)) as [e'|[[total free] used]] eqn:Hb.
    + destruct (disk_bytes_raises_any _ _ _ Hb) as [Hc|(-> & Hs & Hrefused)].
      * revert He. unfold get_disk_usage, disk_usage_try. rewrite Hb.
        cbn [bind try_except]. rewrite Hc. discriminate.
      * rewrite (get_disk_usage_refused_path self host path Hs Hrefused) in He.
        injection He as <-. repeat split; assumption.
    + revert He. unfold get_disk_usage.
      rewrite (disk_usage_try_of_bytes host _ total free used Hb). discriminate.
  - destruct (disk_bytes host (default_path self path)) as [e|[[total free] used]] eqn:Hb.
    + unfold disk_usage_try. rewrite Hb. cbn [bind].
      intros [= ->].
      destruct (disk_bytes_raises_any _ _ _ Hb) as [Hc|(Hv & _)]; discriminate.
    + rewrite (disk_usage_try_of_bytes host _ total free used Hb). discriminate.
  - intros Hpath. split; [exact (Hreturns Hpath)|]. split.
    + unfold reported_total.
      destruct (disk_bytes host (default_path self path)) as [e|[[total free] used]] eqn:Hb;
        [discriminate|].
      intros [= ->]. unfold get_disk_usage.
      rewrite (disk_usage_try_of_bytes host _ 0%Z free used Hb). eexists _, _. reflexivity.
    + intros Hf. destruct (os_query_fails_raises _ _ Hpath Hf) as [e He].
      apply (get_disk_usage_default self host path e Hpath He).
  - intros ->. apply Hreturns, default_path_accepted.
  - intros Hs [Hrefused|Hnull].
    + apply (get_disk_usage_refused_path self host path Hs Hrefused).
    + apply (get_disk_usage_refused_path self host path Hs (null_refused _ _ Hnull)).
Qed.

Lemma get_disk_usage_guarded_witness :
  let self := SystemMonitor_init "windows" in
  path_refused empty_volume_host (default_path self None) = false
  /\ reported_total empty_volume_host (default_path self None) = Some 0%Z
  /\ exists used_gb total_gb,
       @get_disk_usage small_python self empty_volume_host None
       = inr (0%float, used_gb, total_gb).
Proof.
  intros self. split; [reflexivity|]. split; [reflexivity|].
  exact (proj1 (proj2 (proj1 (proj2 (proj2
    (@get_disk_usage_guarded small_python self empty_volume_host None))) eq_refl)) eq_refl).
Defined.

(** ** Persistence *)

Lemma of_kwargs_asdict (s : SystemSnapshot) :
  SystemSnapshot_of_kwargs (asdict s) = inr s.
Proof. destruct s. reflexivity. Qed.

Lemma mapM_snapshot_of_json (l : list SystemSnapshot) :
  mapM snapshot_of_json (map (fun s => JObject (asdict s)) l) = inr l.
Proof.
  induction l as [|s l IH]; [reflexivity|].
  cbn [map mapM]. unfold snapshot_of_json at 1.
  rewrite of_kwargs_asdict. cbn [bind]. rewrite IH. reflexivity.
Qed.

(** Loading what was saved gives the last 50 snapshots of the saved history,
    field for field. *)
Lemma load_save_last_50 (saved target : SystemMonitor) (now_iso : string) :
  load_historical_data target (Document (save_data saved now_iso))
  = inr (set_snapshots target (lastn 50 (snapshots saved))).
Proof.
  unfold load_historical_data, save_data.
  cbn [bind ret dict_get String.eqb Ascii.eqb Bool.eqb json_iter].
  rewrite mapM_snapshot_of_json. reflexivity.
Qed.

(** C8. Saving a history of 5 snapshots and loading the document back gives
    a history equal to the original, in the same order and field for field. *)
Theorem save_load_roundtrip (saved target : SystemMonitor) (now_iso : string) :
  length (snapshots saved) = 5%nat ->
  exists loaded,
    load_historical_data target (Document (save_data saved now_iso)) = inr loaded
    /\ snapshots loaded = snapshots saved.
Proof.
  intros Hlen. eexists. split; [apply load_save_last_50|].
  simpl. apply lastn_all. lia.
Qed.

Lemma save_load_roundtrip_witness :
  let saved := take_snapshots (SystemMonitor_init "linux") (measurements 5) in
  length (snapshots saved) = 5%nat
  /\ exists loaded,
       load_historical_data (SystemMonitor_init "linux")
         (Document (save_data saved "2024-01-01T00:00:05")) = inr loaded
       /\ snapshots loaded = snapshots saved.
Proof.
  intros saved. split; [reflexivity|].
  apply (save_load_roundtrip saved (SystemMonitor_init "linux") "2024-01-01T00:00:05").
  reflexivity.
Defined.

(** ** Historical analysis *)

Lemma mean_defined `{Python} (l : list float) :
  l <> [] -> exists m, statistics_mean l = Some m /\ mean l = inr m.
Proof.
  intros Hl. destruct l as [|x l]; [contradiction|].
  destruct (statistics_mean_nonempty x l) as [m Hm].
  exists m. unfold mean. rewrite Hm. split; reflexivity.
Qed.

Lemma statistics_of_defined `{Python} (l : list float) :
  l <> [] -> exists st, statistics_of l = inr st.
Proof.
  intros Hl. destruct l as [|x l]; [contradiction|].
  destruct (mean_defined (x :: l) Hl) as (m & _ & Hm).
  unfold statistics_of. rewrite Hm. eexists. reflexivity.
Qed.

Lemma nonempty_of_length {A} (l : list A) : (0 < length l)%nat -> l <> [].
Proof. destruct l; simpl; [lia | discriminate]. Qed.

(** The trend block on at least 10 values. *)
Lemma cpu_trend_enough `{Python} (cpu_values : list float) :
  (10 <= length cpu_values)%nat ->
  exists recent older,
    statistics_mean (lastn 5 cpu_values) = Some recent
    /\ statistics_mean (take 5 cpu_values) = Some older
    /\ cpu_trend cpu_values
       = inr (Some (mkTrendLine
                      (if PrimFloat.ltb older recent then Increasing else Decreasing)
                      recent older)).
Proof.
  intros Hlen.
  destruct (mean_defined (lastn 5 cpu_values)) as (recent & Hr & Hr').
  { apply nonempty_of_length. rewrite lastn_length. lia. }
  destruct (mean_defined (take 5 cpu_values)) as (older & Ho & Ho').
  { apply nonempty_of_length. rewrite length_take. lia. }
  exists recent, older. split; [exact Hr|]. split; [exact Ho|].
  unfold cpu_trend. destruct (Nat.leb_spec 10 (length cpu_values)); [|lia].
  rewrite Hr', Ho'. reflexivity.
Qed.

Lemma cpu_trend_short `{Python} (cpu_values : list float) :
  (length cpu_values < 10)%nat -> cpu_trend cpu_values = inr None.
Proof.
  intros Hlen. unfold cpu_trend.
  destruct (Nat.leb_spec 10 (length cpu_values)); [lia | reflexivity].
Qed.

(** The analysis on at least 2 snapshots: the statistics are computed and
    the trend is that of [cpu_trend]. *)
Lemma analysis_of_two `{Python} (monitor : SystemMonitor) (trend : option TrendLine) :
  (2 <= length (snapshots monitor))%nat ->
  cpu_trend (map cpu_percent (snapshots monitor)) = inr trend ->
  exists cpu mem,
    display_historical_analysis monitor
    = inr (Analysis (length (snapshots monitor)) cpu mem trend).
Proof.
  intros Hlen Ht. unfold display_historical_analysis.
  destruct (Nat.ltb_spec (length (snapshots monitor)) 2); [lia|].
  destruct (statistics_of_defined (map cpu_percent (snapshots monitor))) as [cpu Hc].
  { apply nonempty_of_length. rewrite length_map. lia. }
  destruct (statistics_of_defined (map memory_percent (snapshots monitor))) as [mem Hm].
  { apply nonempty_of_length. rewrite length_map. lia. }
  exists cpu, mem. rewrite Hc, Hm, Ht. reflexivity.
Qed.

Lemma short_history_is_not_reported_insufficient :
  let five := take_snapshots (SystemMonitor_init "linux") (measurements 5) in
  (length (snapshots five) < 10)%nat
  /\ ~ (exists a,
          @display_historical_analysis small_python five = inr a
          /\ reports_insufficient_data a).
Proof.
  intros five. split; [vm_compute; lia|].
  intros (a & Ha & Hr). unfold reports_insufficient_data in Hr. subst a.
  vm_compute in Ha. discriminate.
Qed.

(** C7 (amended). On a history of fewer than 10 snapshots the analysis
    reports no direction: below 2 it says that there is not enough data;
    from 2 to 9 it prints the statistics and leaves the trend line out.  On
    at least 10 it takes the mean of the last 5 CPU values and the mean of
    the first 5, both defined, and reports Increasing when the recent mean
    is above the older one and Decreasing otherwise. *)
Theorem trend_needs_ten_points `{Python} (monitor : SystemMonitor) :
  let cpu_values := map cpu_percent (snapshots monitor) in
  let n := length (snapshots monitor) in
  ((n < 2)%nat -> display_historical_analysis monitor = inr NotEnoughData)
  /\ ((2 <= n < 10)%nat ->
      exists cpu mem,
        display_historical_analysis monitor = inr (Analysis n cpu mem None))
  /\ ((n < 10)%nat ->
      exists a,
        display_historical_analysis monitor = inr a /\ reported_direction a = None)
  /\ ((10 <= n)%nat ->
      exists cpu mem recent older,
        length (lastn 5 cpu_values) = 5%nat
        /\ length (take 5 cpu_values) = 5%nat
        /\ statistics_mean (lastn 5 cpu_values) = Some recent
        /\ statistics_mean (take 5 cpu_values) = Some older
        /\ display_historical_analysis monitor
           = inr (Analysis n cpu mem
                    (Some {| direction := if PrimFloat.ltb older recent
                                          then Increasing else Decreasing;
                             recent_cpu := recent;
                             older_cpu := older |}))).
Proof.
  intros cpu_values n.
  assert (Hlow : (n < 2)%nat -> display_historical_analysis monitor = inr NotEnoughData).
  { intros Hlt. unfold display_historical_analysis.
    destruct (Nat.ltb_spec (length (snapshots monitor)) 2); [reflexivity | lia]. }
  assert (Hmid : (2 <= n < 10)%nat ->
                 exists cpu mem,
                   display_historical_analysis monitor = inr (Analysis n cpu mem None)).
  { intros [Hge Hlt]. apply (analysis_of_two monitor None Hge).
    apply cpu_trend_short. rewrite length_map. exact Hlt. }
  split; [exact Hlow|]. split; [exact Hmid|]. split.
  - intros Hshort. destruct (Nat.ltb_spec n 2) as [Hlt|Hge].
    + exists NotEnoughData. split; [exact (Hlow Hlt) | reflexivity].
    + destruct (Hmid (conj Hge Hshort)) as (cpu & mem & Ha).
      eexists. split; [exact Ha | reflexivity].
  - intros Hlong.
    destruct (cpu_trend_enough cpu_values) as (recent & older & Hr & Ho & Ht).
    { subst cpu_values. rewrite length_map. exact Hlong. }
    destruct (analysis_of_two monitor _ ltac:(subst n; lia) Ht) as (cpu & mem & Ha).
    exists cpu, mem, recent, older.
    subst cpu_values. rewrite lastn_length, length_take, length_map.
    repeat split; try assumption; subst n; lia.
Qed.

Lemma trend_needs_ten_points_witness :
  let rising := take_snapshots (SystemMonitor_init "linux") (measurements 10) in
  let short := take_snapshots (SystemMonitor_init "linux") (measurements 9) in
  ((length (snapshots short) < 10)%nat
   /\ exists a,
        @display_historical_analysis small_python short = inr a
        /\ reported_direction a = None)
  /\ ((10 <= length (snapshots rising))%nat
      /\ exists a,
           @display_historical_analysis small_python rising = inr a
           /\ reported_direction a = Some Increasing).
Proof.
  intros rising short. split.
  - assert (Hs : (length (snapshots short) < 10)%nat) by (vm_compute; lia).
    split; [exact Hs|].
    exact (proj1 (proj2 (proj2 (@trend_needs_ten_points small_python short))) Hs).
  - assert (Hl : (10 <= length (snapshots rising))%nat) by (vm_compute; lia).
    split; [exact Hl|].
    destruct (proj2 (proj2 (proj2 (@trend_needs_ten_points small_python rising))) Hl)
      as (cpu & mem & recent & older & _ & _ & Hr & Ho & Ha).
    eexists. split; [exact Ha|].
    vm_compute in Hr. vm_compute in Ho.
    injection Hr as <-. injection Ho as <-. reflexivity.
Defined.

(** ** Connection quality *)

Lemma valid_pings_nil (connectivity : list (string * option float)) :
  valid_pings connectivity = [] <-> Forall (fun kv => snd kv = None) connectivity.
Proof.
  unfold valid_pings, dict_values.
  induction connectivity as [|[host [rtt|]] rest IH]; simpl.
  - split; [constructor | reflexivity].
  - split; [discriminate | intros Hall; inversion Hall; discriminate].
  - rewrite IH. split; [constructor; [reflexivity | assumption]|].
    intros Hall. inversion Hall. assumption.
Qed.

Lemma silent_hosts_report_nothing :
  Forall (fun kv => snd kv = None) silent_connectivity
  /\ @connectivity_summary small_python silent_connectivity = inr []
  /\ ~ (exists lines,
          @connectivity_summary small_python silent_connectivity = inr lines
          /\ reports_no_data lines).
Proof.
  split; [repeat constructor|]. split; [reflexivity|].
  intros (lines & Hl & Hne & _). vm_compute in Hl. injection Hl as <-.
  apply Hne. reflexivity.
Qed.

(** C9 (amended). The quality is a function of the mean of the round-trip
    times that are present: Excellent when the mean is below 50, otherwise
    Good when it is below 100, otherwise Poor; the block always comes out
    without an exception and reports exactly one quality when a host
    answered; when no host answered nothing is printed, neither a quality
    nor a notice. *)
Theorem quality_by_average `{Python} (connectivity : list (string * option float)) :
  (exists lines, connectivity_summary connectivity = inr lines)
  /\ (Forall (fun kv => snd kv = None) connectivity ->
      connectivity_summary connectivity = inr [])
  /\ (~ Forall (fun kv => snd kv = None) connectivity ->
      exists avg,
        statistics_mean (valid_pings connectivity) = Some avg
        /\ connectivity_summary connectivity
           = inr [ConnectivityHeader;
                  ReachableServers (length (valid_pings connectivity)) (length connectivity);
                  AveragePing avg;
                  ConnectionQuality (if PrimFloat.ltb avg 50 then Excellent
                                     else if PrimFloat.ltb avg 100 then Good
                                     else Poor)]).
Proof.
  assert (Hnone : Forall (fun kv => snd kv = None) connectivity ->
                  connectivity_summary connectivity = inr []).
  { intros Hall. apply valid_pings_nil in Hall.
    unfold connectivity_summary. rewrite Hall. reflexivity. }
  assert (Hsome : ~ Forall (fun kv => snd kv = None) connectivity ->
      exists avg,
        statistics_mean (valid_pings connectivity) = Some avg
        /\ connectivity_summary connectivity
           = inr [ConnectivityHeader;
                  ReachableServers (length (valid_pings connectivity)) (length connectivity);
                  AveragePing avg;
                  ConnectionQuality (classify avg)]).
  { intros Hnot. rewrite <- valid_pings_nil in Hnot.
    destruct (mean_defined _ Hnot) as (avg & Hs & Hm).
    exists avg. split; [exact Hs|].
    unfold connectivity_summary.
    destruct (valid_pings connectivity) as [|p ps] eqn:Hv; [contradiction|].
    rewrite Hm. reflexivity. }
  split; [|split; [exact Hnone | exact Hsome]].
  destruct (decide (valid_pings connectivity = [])) as [Hv|Hv].
  - eexists. apply Hnone. apply valid_pings_nil. exact Hv.
  - rewrite valid_pings_nil in Hv. destruct (Hsome Hv) as (avg & _ & Hc).
    eexists. exact Hc.
Qed.

Lemma quality_by_average_witness :
  (Forall (fun kv => snd kv = None) silent_connectivity
   /\ @connectivity_summary small_python silent_connectivity = inr [])
  /\ (~ Forall (fun kv => snd kv = None) sample_connectivity
      /\ exists avg,
           @statistics_mean small_python (valid_pings sample_connectivity) = Some avg
           /\ @connectivity_summary small_python sample_connectivity
              = inr [ConnectivityHeader;
                     ReachableServers 2 4;
                     AveragePing avg;
                     ConnectionQuality (if PrimFloat.ltb avg 50 then Excellent
                                        else if PrimFloat.ltb avg 100 then Good
                                        else Poor)]).
Proof.
  split.
  - assert (Hall : Forall (fun kv : string * option float => snd kv = None) silent_connectivity)
      by (repeat constructor).
    split; [exact Hall|].
    exact (proj1 (proj2 (@quality_by_average small_python silent_connectivity)) Hall).
  - assert (Hnot : ~ Forall (fun kv : string * option float => snd kv = None) sample_connectivity)
      by (intros Hall; inversion Hall; discriminate).
    split; [exact Hnot|].
    exact (proj2 (proj2 (@quality_by_average small_python sample_connectivity)) Hnot).
Defined.

Example sample_connectivity_is_excellent :
  @connectivity_summary small_python sample_connectivity
  = inr [ConnectivityHeader; ReachableServers 2 4; AveragePing 30;
         ConnectionQuality Excellent].
Proof. reflexivity. Qed.

(** ** Connectivity probing *)

Lemma ping_host_eval (net : Network) (host : string) (timeout now : Z) :
  ping_host net host timeout now
  = (ping_value (net host 80%Z timeout now),
     (now + attempt_ms (net host 80%Z timeout now))%Z).
Proof.
  unfold ping_host. destruct (net host 80%Z timeout now) as [d|d]; simpl; [|reflexivity].
  do 3 f_equal. lia.
Qed.

Lemma dict_set_fresh {V} (k : string) (v : V) (d : list (string * V)) :
  dict_get k d = None -> dict_set k v d = d ++ [(k, v)].
Proof.
  induction d as [|[k' v'] d IH]; simpl; [reflexivity|].
  destruct (String.eqb k k'); [discriminate|].
  intros Hd. rewrite (IH Hd). reflexivity.
Qed.

Lemma dict_get_snoc_other {V} (k k' : string) (v : V) (d : list (string * V)) :
  k <> k' -> dict_get k d = None -> dict_get k (d ++ [(k', v)]) = None.
Proof.
  intros Hne. induction d as [|[k0 v0] d IH]; simpl.
  - destruct (String.eqb_spec k k'); [contradiction | reflexivity].
  - destruct (String.eqb k k0); [discriminate | exact IH].
Qed.


Lemma probe_loop_results (net : Network) (servers : list (string * Z))
    (results : list (string * option float)) (now : Z) :
  NoDup (map fst servers) ->
  Forall (fun server => dict_get (fst server) results = None) servers ->
  fst (fold_left (probe_step net) servers (results, now))
  = results ++ sequential_probes net servers now.
Proof.
  revert results now. induction servers as [|server rest IH]; intros results now Hnd Hfresh.
  - simpl. rewrite app_nil_r. reflexivity.
  - cbn [fold_left]. unfold probe_step at 2. rewrite ping_host_eval.
    cbn [fst snd].
    inversion Hnd as [|h t Hnotin Hnd']; subst.
    inversion Hfresh as [|s t Hhead Hrest]; subst.
    rewrite (dict_set_fresh _ _ _ Hhead).
    rewrite IH; [|exact Hnd'|].
    + cbn [sequential_probes]. rewrite <- app_assoc. reflexivity.
    + rewrite Forall_forall in Hrest |- *. intros s Hs.
      apply dict_get_snoc_other; [|apply Hrest; exact Hs].
      intros Heq. apply Hnotin. rewrite <- Heq.
      apply list_elem_of_fmap. exists s. split; [reflexivity | exact Hs].
Qed.





Lemma test_servers_distinct : NoDup (map fst test_servers).
Proof. apply (bool_decide_unpack _). vm_compute. exact I. Qed.


(** ** Stopping the monitoring loop *)

Lemma after_absent (e : event) (t : list event) :
  occurs e t = false -> after e t = [].
Proof.
  induction t as [|x t IH]; simpl; [reflexivity|].
  destruct (event_eqb x e); [discriminate | exact IH].
Qed.

Lemma after_snoc_present (e x : event) (t : list event) :
  occurs e t = true -> after e (t ++ [x]) = after e t ++ [x].
Proof.
  induction t as [|y t IH]; simpl; [discriminate|].
  destruct (event_eqb y e); [reflexivity | exact IH].
Qed.

Lemma after_snoc_absent (e x : event) (t : list event) :
  occurs e t = false -> after e (t ++ [x]) = [].
Proof.
  induction t as [|y t IH]; simpl.
  - destruct (event_eqb x e); reflexivity.
  - destruct (event_eqb y e); [discriminate | exact IH].
Qed.

Lemma occurs_snoc (e x : event) (t : list event) :
  occurs e (t ++ [x]) = occurs e t || event_eqb x e.
Proof. unfold occurs. rewrite existsb_app. simpl. rewrite orb_false_r. reflexivity. Qed.

Lemma appends_snoc (x : event) (t : list event) :
  appends (t ++ [x]) = (appends t + (if event_eqb x Appended then 1 else 0))%nat.
Proof.
  unfold appends. rewrite filter_app, length_app. f_equal.
  destruct x; reflexivity.
Qed.

Lemma invariant_start (m : SystemMonitor) (file : data_file) :
  invariant false (start_monitoring m file).
Proof.
  constructor; simpl; try reflexivity; try discriminate.
  - intros H. exfalso. apply H. reflexivity.
  - vm_compute. lia.
  - vm_compute. lia.
Qed.

Lemma invariant_step (ended : bool) (a a' : SystemAnalyzer) (act : action) :
  invariant ended a ->
  step a act = Some a' ->
  invariant (ended || is_join_ended act) a'.
Proof.
  intros [Hcalled Hdone Hflag Hcycle Hc1 Hd1 Hended] Hstep.
  destruct act as [m| | | |now_iso]; simpl in Hstep.
  - (* a step of the loop thread *)
    rewrite orb_false_r.
    unfold monitor_loop_step in Hstep.
    destruct (monitor_thread a) eqn:Hpc.
    + injection Hstep as <-. constructor; simpl; try assumption.
      * intros Hin. destruct (running a) eqn:Hrun; [|discriminate].
        destruct (stopper a) eqn:Hst;
          try (specialize (Hflag ltac:(discriminate)); discriminate).
        unfold appends_after. simpl in Hcalled, Hdone.
        rewrite (after_absent _ _ Hcalled), (after_absent _ _ Hdone).
        split; reflexivity.
      * intros He. destruct (Hended He) as (_ & Hp & _). discriminate.
    + destruct (take_snapshot (monitor a) m) as [monitor' returned].
      injection Hstep as <-.
      destruct (Hcycle eq_refl) as [Hc0 Hd0].
      constructor; simpl.
      * rewrite occurs_snoc, orb_false_r. exact Hcalled.
      * rewrite occurs_snoc, orb_false_r. exact Hdone.
      * exact Hflag.
      * destruct returned; discriminate.
      * unfold appends_after in *.
        destruct (occurs StopCalled (trace a)) eqn:Ho.
        -- rewrite (after_snoc_present _ _ _ Ho), appends_snoc, Hc0. simpl. lia.
        -- rewrite (after_snoc_absent _ _ _ Ho). unfold appends. simpl. lia.
      * unfold appends_after in *.
        destruct (occurs StopDone (trace a)) eqn:Ho.
        -- rewrite (after_snoc_present _ _ _ Ho), appends_snoc, Hd0. simpl. lia.
        -- rewrite (after_snoc_absent _ _ _ Ho). unfold appends. simpl. lia.
      * intros He. destruct (Hended He) as (_ & Hp & _). discriminate.
    + injection Hstep as <-. constructor; simpl; try assumption.
      * discriminate.
      * intros He. destruct (Hended He) as (_ & Hp & _). discriminate.
    + discriminate.
  - (* the flag is cleared *)
    rewrite orb_false_r.
    unfold stop_monitoring_begin in Hstep.
    destruct (stopper a) eqn:Hst; try discriminate.
    injection Hstep as <-. simpl in Hcalled, Hdone.
    assert (Hac : after StopCalled (trace a ++ [StopCalled]) = [])
      by (apply after_snoc_absent; exact Hcalled).
    assert (Had : after StopDone (trace a ++ [StopCalled]) = [])
      by (apply after_snoc_absent; exact Hdone).
    constructor; unfold appends_after; cbn [trace stopper running monitor_thread];
      rewrite ?Hac, ?Had.
    + rewrite occurs_snoc, Hcalled. reflexivity.
    + rewrite occurs_snoc, Hdone. reflexivity.
    + reflexivity.
    + intros _. split; reflexivity.
    + unfold appends. simpl. lia.
    + unfold appends. simpl. lia.
    + intros He. destruct (Hended He) as ([Hs|Hs] & _); discriminate.
  - (* the join returns, the thread having ended *)
    rewrite orb_true_r.
    unfold stop_monitoring_join in Hstep.
    destruct (stopper a) eqn:Hst; try discriminate.
    destruct (monitor_thread a) eqn:Hpc; try discriminate.
    injection Hstep as <-. simpl in Hcalled, Hdone.
    constructor; cbn [trace stopper running monitor_thread]; try assumption.
    + intros _. apply Hflag. discriminate.
    + intros _. split; [left; reflexivity|]. split; [reflexivity|].
      unfold appends_after. rewrite (after_absent _ _ Hdone). reflexivity.
  - (* the join returns on its timeout *)
    rewrite orb_false_r.
    unfold stop_monitoring_join in Hstep.
    destruct (stopper a) eqn:Hst; try discriminate.
    destruct (Bool.eqb (is_done (monitor_thread a)) false) eqn:Hpc; try discriminate.
    injection Hstep as <-. simpl in Hcalled, Hdone.
    constructor; cbn [trace stopper running monitor_thread]; try assumption.
    + intros _. apply Hflag. discriminate.
    + intros He. destruct (Hended He) as ([Hs|Hs] & _); discriminate.
  - (* the data is saved and [stop_monitoring] returns *)
    rewrite orb_false_r.
    unfold stop_monitoring_return in Hstep.
    destruct (stopper a) eqn:Hst; try discriminate.
    injection Hstep as <-. simpl in Hcalled, Hdone.
    assert (Hac : after StopCalled (trace a ++ [StopDone]) = after StopCalled (trace a) ++ [StopDone])
      by (apply after_snoc_present; exact Hcalled).
    assert (Had : after StopDone (trace a ++ [StopDone]) = [])
      by (apply after_snoc_absent; exact Hdone).
    constructor; unfold appends_after in *; cbn [trace stopper running monitor_thread];
      rewrite ?Hac, ?Had, ?appends_snoc.
    + rewrite occurs_snoc, Hcalled. reflexivity.
    + rewrite occurs_snoc, Hdone. reflexivity.
    + intros _. apply Hflag. discriminate.
    + intros Hin. destruct (Hcycle Hin) as [Hc0 _]. rewrite Hc0. split; reflexivity.
    + simpl. lia.
    + unfold appends. simpl. lia.
    + intros He. destruct (Hended He) as (_ & Hp & _).
      split; [right; reflexivity|]. split; [exact Hp | reflexivity].
Qed.

Lemma invariant_run (schedule : list action) (ended : bool) (a a' : SystemAnalyzer) :
  invariant ended a ->
  run a schedule = Some a' ->
  invariant (ended || existsb is_join_ended schedule) a'.
Proof.
  revert ended a. induction schedule as [|act rest IH]; intros ended a Hinv Hrun.
  - simpl in *. injection Hrun as <-. rewrite orb_false_r. exact Hinv.
  - simpl in Hrun. destruct (step a act) as [a1|] eqn:Hstep; [|discriminate].
    pose proof (IH _ _ (invariant_step _ _ _ _ Hinv Hstep) Hrun) as H.
    simpl. rewrite orb_assoc. exact H.
Qed.

Lemma append_after_stop_returned :
  (exists a,
     run (start_monitoring (SystemMonitor_init "linux") NoFile)
         (late_cycle (measurement_of_Z 1))
     = Some a
     /\ trace a = [StopCalled; StopDone; Appended]
     /\ snapshots (monitor a) = [build_snapshot (measurement_of_Z 1)]
     /\ stored a = Document (save_data (SystemMonitor_init "linux") "2024-01-01T00:00:02"))
  /\ ~ no_append_after_stop (SystemMonitor_init "linux") (late_cycle (measurement_of_Z 1)).
Proof.
  destruct (run (start_monitoring (SystemMonitor_init "linux") NoFile)
              (late_cycle (measurement_of_Z 1))) as [a|] eqn:Hrun;
    [|vm_compute in Hrun; discriminate].
  split.
  - exists a. split; [reflexivity|].
    vm_compute in Hrun. injection Hrun as <-. repeat split; vm_compute; reflexivity.
  - intros Hno. unfold no_append_after_stop in Hno. specialize (Hno a Hrun).
    vm_compute in Hrun. injection Hrun as <-. vm_compute in Hno. discriminate.
Qed.

(** C6 (amended). [stop_monitoring] clears the flag and waits for the loop
    thread for at most one second before it saves and returns.  Along every
    interleaving the flag stays cleared, and the loop appends at most once
    after the flag was cleared, hence at most once after [stop_monitoring]
    has returned: the cycle in flight, if any.  When the join returned
    because the thread had ended, nothing is appended afterwards. *)
Theorem stop_allows_one_late_append
    (m : SystemMonitor) (file : data_file) (schedule : list action) (a : SystemAnalyzer) :
  run (start_monitoring m file) schedule = Some a ->
  (stopper a <> NotStopping -> running a = false)
  /\ (appends_after StopCalled (trace a) <= 1)%nat
  /\ (appends_after StopDone (trace a) <= 1)%nat
  /\ (existsb is_join_ended schedule = true ->
      monitor_thread a = LoopDone /\ appends_after StopDone (trace a) = 0%nat).
Proof.
  intros Hrun.
  destruct (invariant_run schedule false _ _ (invariant_start m file) Hrun)
    as [_ _ Hflag _ Hc1 Hd1 Hended].
  split; [exact Hflag|]. split; [exact Hc1|]. split; [exact Hd1|].
  intros He. destruct (Hended He) as (_ & Hp & Hz). split; assumption.
Qed.

Lemma stop_allows_one_late_append_witness :
  exists a,
    run (start_monitoring (SystemMonitor_init "linux") NoFile)
        (clean_stop (measurement_of_Z 1))
    = Some a
    /\ trace a = [Appended; StopCalled; StopDone]
    /\ (appends_after StopDone (trace a) <= 1)%nat
    /\ (existsb is_join_ended (clean_stop (measurement_of_Z 1)) = true ->
        monitor_thread a = LoopDone /\ appends_after StopDone (trace a) = 0%nat).
Proof.
  destruct (run (start_monitoring (SystemMonitor_init "linux") NoFile)
              (clean_stop (measurement_of_Z 1))) as [a|] eqn:Hrun;
    [|vm_compute in Hrun; discriminate].
  exists a. split; [reflexivity|].
  pose proof (stop_allows_one_late_append (SystemMonitor_init "linux") NoFile
                (clean_stop (measurement_of_Z 1)) a Hrun) as (_ & _ & Hdone & Hended).
  split; [|split; [exact Hdone | exact Hended]].
  vm_compute in Hrun. injection Hrun as <-. vm_compute. reflexivity.
Defined.

(** ** Alert configuration *)




Example configure_metric_accepts :
  @configure_metric small_python default_thresholds "cpu" " 75 "
  = inr (<["cpu" := 75%float]> default_thresholds, ThresholdSet 75).
Proof. reflexivity. Qed.

Example configure_metric_out_of_range :
  @configure_metric small_python default_thresholds "cpu" "150"
  = inr (default_thresholds, InvalidThreshold).
Proof. reflexivity. Qed.

Example configure_metric_not_a_number :
  @configure_metric small_python default_thresholds "cpu" "high"
  = inr (default_thresholds, InvalidValue).
Proof. reflexivity. Qed.

Example configure_metric_empty_line :
  @configure_metric small_python default_thresholds "cpu" "   "
  = inr (default_thresholds, Kept).
Proof. reflexivity. Qed.

(** The thresholds keep their three keys through the dialogue. *)
Lemma configure_metric_keeps_keys `{Python}
    (thresholds thresholds' : gmap string float) (metric line : string) (o : Outcome) :
  has_thresholds thresholds ->
  configure_metric thresholds metric line = inr (thresholds', o) ->
  has_thresholds thresholds'.
Proof.
  intros Hth. unfold configure_metric, subscript.
  destruct (thresholds !! metric) as [current|]; [|discriminate]. cbn [bind ret].
  destruct (String.eqb (strip line) ""); [intros [= <- _]; exact Hth|].
  destruct (float_of_str (strip line)) as [v|]; [|intros [= <- _]; exact Hth].
  destruct (valid_threshold v); intros [= <- _]; [|exact Hth].
  destruct Hth as (Hc & Hm & Hd).
  repeat split; apply lookup_insert_is_Some'; right; assumption.
Qed.

Lemma configure_metric_returns `{Python}
    (thresholds : gmap string float) (metric line : string) :
  is_Some (thresholds !! metric) ->
  exists thresholds' o, configure_metric thresholds metric line = inr (thresholds', o).
Proof.
  intros [current Hcur]. unfold configure_metric, subscript. rewrite Hcur. cbn [bind ret].
  destruct (String.eqb (strip line) ""); [eexists _, _; reflexivity|].
  destruct (float_of_str (strip line)) as [v|]; [|eexists _, _; reflexivity].
  destruct (valid_threshold v); eexists _, _; reflexivity.
Qed.

(** With the three thresholds present the whole dialogue goes through; it
    leaves the history alone and keeps the three keys. *)
Lemma configure_alerts_returns `{Python} (m : SystemMonitor)
    (cpu_line memory_line disk_line toggle_line : string) :
  has_thresholds (alert_thresholds m) ->
  exists m' outcomes,
    configure_alerts m cpu_line memory_line disk_line toggle_line = inr (m', outcomes)
    /\ length outcomes = 3%nat
    /\ snapshots m' = snapshots m
    /\ has_thresholds (alert_thresholds m').
Proof.
  intros Hth. unfold configure_alerts. cbn [zip zip_with metrics configure_metrics].
  destruct (configure_metric_returns (alert_thresholds m) "cpu" cpu_line (proj1 Hth))
    as (t1 & o1 & E1).
  pose proof (configure_metric_keeps_keys _ _ _ _ _ Hth E1) as Hth1.
  rewrite E1. cbn [bind ret fst snd].
  destruct (configure_metric_returns t1 "memory" memory_line (proj1 (proj2 Hth1)))
    as (t2 & o2 & E2).
  pose proof (configure_metric_keeps_keys _ _ _ _ _ Hth1 E2) as Hth2.
  rewrite E2. cbn [bind ret fst snd].
  destruct (configure_metric_returns t2 "disk" disk_line (proj2 (proj2 Hth2)))
    as (t3 & o3 & E3).
  pose proof (configure_metric_keeps_keys _ _ _ _ _ Hth2 E3) as Hth3.
  rewrite E3. cbn [bind ret fst snd].
  eexists _, _. split; [reflexivity|]. split; [reflexivity|].
  destruct (String.eqb (lower toggle_line) "y"); split; first [reflexivity | exact Hth3].
Qed.

(** * Further properties *)

(** ** The history from any starting point *)

(** X1. Whatever the history holds before (also more than 100 entries, as a
    loaded file can give), after one or more calls of [take_snapshot] it is
    the last 100 entries of the old history followed by the new snapshots. *)
Theorem take_snapshots_from_any_history (self : SystemMonitor) (ms : list Measurement) :
  ms <> [] ->
  snapshots (take_snapshots self ms)
  = lastn 100 (snapshots self ++ map build_snapshot ms)
  /\ (length (snapshots (take_snapshots self ms)) <= 100)%nat.
Proof.
  intros Hne.
  assert (H : snapshots (take_snapshots self ms)
              = lastn 100 (snapshots self ++ map build_snapshot ms)).
  { induction ms as [|m ms IH] using rev_ind; [contradiction|].
    rewrite take_snapshots_snoc, take_snapshot_history.
    rewrite map_app, app_assoc. cbn [map].
    destruct ms as [|m0 ms0].
    - cbn [map]. rewrite app_nil_r. reflexivity.
    - rewrite IH by discriminate. apply lastn_snoc_lastn. }
  split; [exact H|]. rewrite H, lastn_length. lia.
Qed.

Lemma take_snapshots_from_any_history_witness :
  let long := set_snapshots (SystemMonitor_init "linux")
                (map build_snapshot (measurements 120)) in
  let ms := measurements 3 in
  ms <> []
  /\ length (snapshots long) = 120%nat
  /\ snapshots (take_snapshots long ms)
     = lastn 100 (snapshots long ++ map build_snapshot ms)
  /\ (length (snapshots (take_snapshots long ms)) <= 100)%nat.
Proof.
  intros long ms.
  assert (Hne : ms <> []) by discriminate.
  split; [exact Hne|]. split; [vm_compute; reflexivity|].
  exact (take_snapshots_from_any_history long ms Hne).
Defined.

(** ** Loading and saving *)

(** X2. Saving keeps the most recent 50 snapshots only: loading what
    [save_data] wrote replaces the history by the last 50 entries of the
    saved one, in order, and touches nothing else of the monitor. *)
Theorem save_then_load_keeps_last_50 (saved target : SystemMonitor) (now_iso : string) :
  exists loaded,
    load_historical_data target (Document (save_data saved now_iso)) = inr loaded
    /\ snapshots loaded = lastn 50 (snapshots saved)
    /\ length (snapshots loaded) = Nat.min 50 (length (snapshots saved))
    /\ alert_thresholds loaded = alert_thresholds target
    /\ alerts_enabled loaded = alerts_enabled target.
Proof.
  eexists. split; [apply load_save_last_50|]. cbn [snapshots set_snapshots].
  split; [reflexivity|]. split; [apply lastn_length|]. split; reflexivity.
Qed.

Lemma bind_inr {A B} (m : result A) (k : A -> result B) (b : B) :
  bind m k = inr b -> exists a, m = inr a /\ k a = inr b.
Proof. destruct m as [e|a]; [discriminate|]. intros H. exists a. split; [reflexivity | exact H]. Qed.

Lemma bind_inl {A B} (m : result A) (k : A -> result B) (e : exn) :
  bind m k = inl e -> m = inl e \/ exists a, m = inr a /\ k a = inl e.
Proof.
  destruct m as [e'|a]; simpl.
  - intros [= ->]. left. reflexivity.
  - intros H. right. exists a. split; [reflexivity | exact H].
Qed.

Lemma kwarg_inr (name : string) (kw : list (string * json)) (v : json) :
  kwarg name kw = inr v -> dict_get name kw = Some v.
Proof. unfold kwarg. destruct (dict_get name kw); [intros [= ->]; reflexivity | discriminate]. Qed.

Lemma kwarg_raises (name : string) (kw : list (string * json)) (e : exn) :
  kwarg name kw = inl e -> e = TypeError.
Proof. unfold kwarg. destruct (dict_get name kw); [discriminate | intros [= <-]; reflexivity]. Qed.

Lemma as_str_raises (j : json) (e : exn) : as_str j = inl e -> e = TypeError.
Proof. destruct j; simpl; try discriminate; intros [= <-]; reflexivity. Qed.

Lemma as_float_raises (j : json) (e : exn) : as_float j = inl e -> e = TypeError.
Proof. destruct j; simpl; try discriminate; intros [= <-]; reflexivity. Qed.

Lemma as_int_raises (j : json) (e : exn) : as_int j = inl e -> e = TypeError.
Proof. destruct j; simpl; try discriminate; intros [= <-]; reflexivity. Qed.

Lemma field_raises {A} (name : string) (kw : list (string * json))
    (conv : json -> result A) (e : exn) :
  (forall j e', conv j = inl e' -> e' = TypeError) ->
  bind (kwarg name kw) conv = inl e -> e = TypeError.
Proof.
  intros Hconv H. apply bind_inl in H as [H|(j & _ & H)].
  - apply (kwarg_raises _ _ _ H).
  - apply (Hconv _ _ H).
Qed.

(** The constructor raises nothing but TypeError. *)
Lemma of_kwargs_raises (kw : list (string * json)) (e : exn) :
  SystemSnapshot_of_kwargs kw = inl e -> e = TypeError.
Proof.
  unfold SystemSnapshot_of_kwargs.
  destruct (forallb _ _); [|intros [= <-]; reflexivity].
  intros H.
  repeat (apply bind_inl in H as [H|(? & _ & H)];
          [first [ apply (field_raises _ _ _ _ as_str_raises H)
                 | apply (field_raises _ _ _ _ as_float_raises H)
                 | apply (field_raises _ _ _ _ as_int_raises H) ]|]).
  discriminate.
Qed.

Lemma field_present {A} (name : string) (kw : list (string * json))
    (conv : json -> result A) (a : A) :
  bind (kwarg name kw) conv = inr a -> is_Some (dict_get name kw).
Proof.
  intros H. apply bind_inr in H as (j & Hj & _).
  apply kwarg_inr in Hj. eexists. exact Hj.
Qed.

(** When the constructor returns, no key is unknown and no field missing. *)
Lemma of_kwargs_well_formed (kw : list (string * json)) (s : SystemSnapshot) :
  SystemSnapshot_of_kwargs kw = inr s -> malformed_record (JObject kw) = false.
Proof.
  unfold SystemSnapshot_of_kwargs, malformed_record.
  destruct (forallb (fun k => existsb (String.eqb k) field_names) (map fst kw));
    [|discriminate].
  intros H. cbn [negb orb]. apply negb_false_iff.
  repeat (apply bind_inr in H as (? & ?%field_present & H)).
  unfold field_names. cbn [forallb].
  rewrite !bool_decide_eq_true_2 by assumption. reflexivity.
Qed.

Lemma snapshot_of_json_raises (j : json) (e : exn) :
  snapshot_of_json j = inl e -> e = TypeError.
Proof.
  destruct j; simpl; try (intros [= <-]; reflexivity).
  apply of_kwargs_raises.
Qed.

Lemma malformed_record_refused (j : json) :
  malformed_record j = true -> snapshot_of_json j = inl TypeError.
Proof.
  intros Hm. destruct (snapshot_of_json j) as [e|s] eqn:Hs.
  - f_equal. apply (snapshot_of_json_raises _ _ Hs).
  - destruct j; try discriminate. simpl in Hs.
    apply of_kwargs_well_formed in Hs. congruence.
Qed.

Lemma mapM_refused (items : list json) :
  existsb malformed_record items = true ->
  mapM snapshot_of_json items = inl TypeError.
Proof.
  induction items as [|j items IH]; [discriminate|].
  cbn [existsb mapM]. intros H.
  destruct (snapshot_of_json j) as [e|s] eqn:Hs.
  - rewrite (snapshot_of_json_raises _ _ Hs). reflexivity.
  - cbn [bind]. destruct (malformed_record j) eqn:Hm.
    + rewrite (malformed_record_refused _ Hm) in Hs. discriminate.
    + rewrite (IH H). reflexivity.
Qed.

(** X3. Loading is all or nothing: when one element of the stored list is
    not a mapping, has a key that is no field of the snapshot, or lacks a
    field, the error is caught and the monitor is left exactly as it was,
    the well-formed elements being dropped with the bad one. *)
Theorem load_is_all_or_nothing
    (target : SystemMonitor) (document : list (string * json)) (items : list json) :
  dict_get "snapshots" document = Some (JList items) ->
  existsb malformed_record items = true ->
  load_historical_data target (Document (JObject document)) = inr target.
Proof.
  intros Hdoc Hbad. unfold load_historical_data.
  cbn [bind ret]. rewrite Hdoc. cbn [json_iter bind ret].
  rewrite (mapM_refused items Hbad). reflexivity.
Qed.

Lemma load_is_all_or_nothing_witness :
  let good := JObject (asdict (build_snapshot (measurement_of_Z 1))) in
  let extra_key := JObject (("hostname", JStr "alpha") :: asdict (build_snapshot (measurement_of_Z 2))) in
  let document := [("snapshots", JList [good; extra_key]); ("saved_at", JStr "2024-01-01T00:00:00")] in
  let target := take_snapshots (SystemMonitor_init "linux") (measurements 2) in
  dict_get "snapshots" document = Some (JList [good; extra_key])
  /\ existsb malformed_record [good; extra_key] = true
  /\ load_historical_data target (Document (JObject document)) = inr target.
Proof.
  intros good extra_key document target.
  split; [reflexivity|]. split; [reflexivity|].
  exact (load_is_all_or_nothing target document [good; extra_key] eq_refl eq_refl).
Defined.

Lemma dict_get_elem {V} (k : string) (v : V) (d : list (string * V)) :
  NoDup (map fst d) -> (dict_get k d = Some v <-> (k, v) ∈ d).
Proof.
  induction d as [|[k' v'] d IH]; simpl; intros Hnd.
  - split; [discriminate | intros H; inversion H].
  - apply NoDup_cons in Hnd as [Hnotin Hnd].
    destruct (String.eqb_spec k k') as [->|Hne].
    + split.
      * intros [= ->]. left.
      * intros Hin. apply elem_of_cons in Hin as [[= ->]|Hin]; [reflexivity|].
        exfalso. apply Hnotin. apply list_elem_of_fmap. exists (k', v). split; [reflexivity | exact Hin].
    + rewrite (IH Hnd). split.
      * intros Hin. right. exact Hin.
      * intros Hin. apply elem_of_cons in Hin as [[= -> ->]|Hin]; [contradiction | exact Hin].
Qed.

Lemma dict_get_permutation {V} (k : string) (d d' : list (string * V)) :
  NoDup (map fst d) -> d ≡ₚ d' -> dict_get k d' = dict_get k d.
Proof.
  intros Hnd Hperm.
  assert (Hnd' : NoDup (map fst d')) by (rewrite <- Hperm; exact Hnd).
  destruct (dict_get k d) as [v|] eqn:Hd.
  - apply (dict_get_elem _ _ _ Hnd'). rewrite <- Hperm. apply (dict_get_elem _ _ _ Hnd). exact Hd.
  - destruct (dict_get k d') as [v'|] eqn:Hd'; [|reflexivity].
    apply (dict_get_elem _ _ _ Hnd') in Hd'. rewrite <- Hperm in Hd'.
    apply (dict_get_elem _ _ _ Hnd) in Hd'. congruence.
Qed.

Lemma forallb_permutation {A} (f : A -> bool) (l l' : list A) :
  l ≡ₚ l' -> forallb f l' = forallb f l.
Proof.
  induction 1 as [|x l l' _ IH|x y l|l l' l'' _ IH1 _ IH2]; simpl.
  - reflexivity.
  - rewrite IH. reflexivity.
  - destruct (f x), (f y); reflexivity.
  - congruence.
Qed.

(** X4. The order of the keys in a stored record does not matter: two
    records with the same key-value pairs in different orders (keys not
    repeated, as in any dict) give the same snapshot, or the same error. *)
Theorem record_key_order_irrelevant (kw kw' : list (string * json)) :
  NoDup (map fst kw) ->
  kw ≡ₚ kw' ->
  SystemSnapshot_of_kwargs kw' = SystemSnapshot_of_kwargs kw.
Proof.
  intros Hnd Hperm. unfold SystemSnapshot_of_kwargs, kwarg.
  rewrite (forallb_permutation _ (map fst kw) (map fst kw')) by (rewrite Hperm; reflexivity).
  rewrite !(dict_get_permutation _ kw kw' Hnd Hperm). reflexivity.
Qed.

Lemma record_key_order_irrelevant_witness :
  let s := build_snapshot (measurement_of_Z 7) in
  NoDup (map fst (asdict s))
  /\ asdict s ≡ₚ rev (asdict s)
  /\ SystemSnapshot_of_kwargs (rev (asdict s)) = inr s.
Proof.
  intros s.
  assert (Hnd : NoDup (map fst (asdict s)))
    by (apply (bool_decide_unpack _); vm_compute; exact I).
  assert (Hperm : asdict s ≡ₚ rev (asdict s)) by apply Permutation_rev.
  split; [exact Hnd|]. split; [exact Hperm|].
  rewrite (record_key_order_irrelevant (asdict s) (rev (asdict s)) Hnd Hperm).
  apply of_kwargs_asdict.
Defined.

(** ** The alert configuration dialogue *)

Lemma configure_metric_effect `{Python}
    (thresholds : gmap string float) (metric line : string) (old : float) :
  thresholds !! metric = Some old ->
  exists o,
    configure_metric thresholds metric line
    = inr (<[metric := threshold_after old line]> thresholds, o).
Proof.
  intros Hold. unfold configure_metric, subscript, threshold_after.
  rewrite Hold. cbn [bind ret].
  destruct (String.eqb (strip line) "").
  - exists Kept. rewrite (insert_id _ _ _ Hold). reflexivity.
  - destruct (float_of_str (strip line)) as [v|].
    + destruct (valid_threshold v).
      * eexists. reflexivity.
      * exists InvalidThreshold. rewrite (insert_id _ _ _ Hold). reflexivity.
    + exists InvalidValue. rewrite (insert_id _ _ _ Hold). reflexivity.
Qed.

(** The thresholds the dialogue leaves, given the three it found. *)
Lemma configure_alerts_effect `{Python} (m : SystemMonitor)
    (cpu_line memory_line disk_line toggle_line : string) (tc tm td : float) :
  alert_thresholds m !! "cpu" = Some tc ->
  alert_thresholds m !! "memory" = Some tm ->
  alert_thresholds m !! "disk" = Some td ->
  exists m' outcomes,
    configure_alerts m cpu_line memory_line disk_line toggle_line = inr (m', outcomes)
    /\ alert_thresholds m'
       = <["disk" := threshold_after td disk_line]>
           (<["memory" := threshold_after tm memory_line]>
              (<["cpu" := threshold_after tc cpu_line]> (alert_thresholds m)))
    /\ snapshots m' = snapshots m
    /\ alerts_enabled m'
       = if String.eqb (lower toggle_line) "y"
         then negb (alerts_enabled m) else alerts_enabled m.
Proof.
  intros Hc Hm Hd. unfold configure_alerts.
  cbn [zip zip_with metrics configure_metrics].
  destruct (configure_metric_effect (alert_thresholds m) "cpu" cpu_line tc Hc) as [o1 E1].
  rewrite E1. cbn [bind ret fst snd].
  destruct (configure_metric_effect
              (<["cpu" := threshold_after tc cpu_line]> (alert_thresholds m))
              "memory" memory_line tm) as [o2 E2].
  { rewrite lookup_insert_ne by discriminate. exact Hm. }
  rewrite E2. cbn [bind ret fst snd].
  destruct (configure_metric_effect
              (<["memory" := threshold_after tm memory_line]>
                 (<["cpu" := threshold_after tc cpu_line]> (alert_thresholds m)))
              "disk" disk_line td) as [o3 E3].
  { rewrite !lookup_insert_ne by discriminate. exact Hd. }
  rewrite E3. cbn [bind ret fst snd].
  eexists _, _. split; [reflexivity|].
  destruct (String.eqb (lower toggle_line) "y"); repeat split.
Qed.

(** X5. In the dialogue each metric's threshold depends on its own line
    only: it becomes the value typed when that is a float in (0, 100] and
    stays what it was otherwise, whatever is typed for the other metrics;
    keys other than the three metrics, and the history, are untouched. *)
Theorem configure_alerts_per_metric `{Python} (m : SystemMonitor)
    (cpu_line memory_line disk_line toggle_line : string) (tc tm td : float) :
  alert_thresholds m !! "cpu" = Some tc ->
  alert_thresholds m !! "memory" = Some tm ->
  alert_thresholds m !! "disk" = Some td ->
  exists m' outcomes,
    configure_alerts m cpu_line memory_line disk_line toggle_line = inr (m', outcomes)
    /\ alert_thresholds m' !! "cpu" = Some (threshold_after tc cpu_line)
    /\ alert_thresholds m' !! "memory" = Some (threshold_after tm memory_line)
    /\ alert_thresholds m' !! "disk" = Some (threshold_after td disk_line)
    /\ (forall key, ~ In key metrics ->
                    alert_thresholds m' !! key = alert_thresholds m !! key)
    /\ snapshots m' = snapshots m.
Proof.
  intros Hc Hm Hd.
  destruct (configure_alerts_effect m cpu_line memory_line disk_line toggle_line
              tc tm td Hc Hm Hd) as (m' & outcomes & E & Ht & Hs & _).
  exists m', outcomes. split; [exact E|]. rewrite Ht.
  split; [|split; [|split; [|split]]].
  - rewrite !lookup_insert_ne by discriminate. apply lookup_insert_eq.
  - rewrite lookup_insert_ne by discriminate. apply lookup_insert_eq.
  - apply lookup_insert_eq.
  - intros key Hkey. unfold metrics in Hkey. cbn [In] in Hkey.
    rewrite lookup_insert_ne by (intros Hk; apply Hkey; auto).
    rewrite lookup_insert_ne by (intros Hk; apply Hkey; auto).
    rewrite lookup_insert_ne by (intros Hk; apply Hkey; auto).
    reflexivity.
  - exact Hs.
Qed.

Lemma configure_alerts_per_metric_witness :
  let m := SystemMonitor_init "linux" in
  alert_thresholds m !! "cpu" = Some 80%float
  /\ alert_thresholds m !! "memory" = Some 85%float
  /\ alert_thresholds m !! "disk" = Some 90%float
  /\ exists m' outcomes,
       @configure_alerts small_python m "70" "0" "" "n" = inr (m', outcomes)
       /\ alert_thresholds m' !! "cpu" = Some 70%float
       /\ alert_thresholds m' !! "memory" = Some 85%float
       /\ alert_thresholds m' !! "disk" = Some 90%float.
Proof.
  intros m. repeat (split; [reflexivity|]).
  destruct (@configure_alerts_per_metric small_python m "70" "0" "" "n" 80 85 90
              eq_refl eq_refl eq_refl)
    as (m' & outcomes & E & Hcpu & Hmem & Hdisk & _).
  exists m', outcomes. split; [exact E|].
  split; [exact Hcpu|]. split; [exact Hmem | exact Hdisk].
Defined.

Lemma threshold_after_valid `{Python} (old : float) (line : string) :
  valid_threshold old = true -> valid_threshold (threshold_after old line) = true.
Proof.
  intros Hold. unfold threshold_after.
  destruct (String.eqb (strip line) ""); [exact Hold|].
  destruct (float_of_str (strip line)) as [v|]; [|exact Hold].
  destruct (valid_threshold v) eqn:Hv; [exact Hv | exact Hold].
Qed.

(** X6. The dialogue keeps the thresholds in range: when every stored
    threshold lies in (0, 100] before, every stored threshold lies in
    (0, 100] after, whatever is typed. *)
Theorem configure_alerts_keeps_range `{Python} (m : SystemMonitor)
    (cpu_line memory_line disk_line toggle_line : string) :
  has_thresholds (alert_thresholds m) ->
  thresholds_valid (alert_thresholds m) ->
  exists m' outcomes,
    configure_alerts m cpu_line memory_line disk_line toggle_line = inr (m', outcomes)
    /\ thresholds_valid (alert_thresholds m')
    /\ has_thresholds (alert_thresholds m').
Proof.
  intros ([tc Hc] & [tm Hm] & [td Hd]) Hvalid.
  destruct (configure_alerts_effect m cpu_line memory_line disk_line toggle_line
              tc tm td Hc Hm Hd) as (m' & outcomes & E & Ht & _).
  exists m', outcomes. split; [exact E|]. rewrite Ht. split.
  - unfold thresholds_valid in *.
    repeat apply map_Forall_insert_2; try exact Hvalid;
      apply threshold_after_valid.
    + apply (Hvalid _ _ Hd).
    + apply (Hvalid _ _ Hm).
    + apply (Hvalid _ _ Hc).
  - repeat split; apply lookup_insert_is_Some'; auto;
      right; apply lookup_insert_is_Some'; auto;
      right; apply lookup_insert_is_Some'; right; eauto.
Qed.

Lemma default_thresholds_valid : thresholds_valid default_thresholds.
Proof.
  unfold thresholds_valid, default_thresholds.
  repeat apply map_Forall_insert_2; try reflexivity. apply map_Forall_empty.
Qed.

Lemma configure_alerts_keeps_range_witness :
  let m := SystemMonitor_init "linux" in
  has_thresholds (alert_thresholds m)
  /\ thresholds_valid (alert_thresholds m)
  /\ exists m' outcomes,
       @configure_alerts small_python m "250" "95" "junk" "y" = inr (m', outcomes)
       /\ thresholds_valid (alert_thresholds m')
       /\ has_thresholds (alert_thresholds m').
Proof.
  intros m.
  split; [exact default_thresholds_present|].
  split; [exact default_thresholds_valid|].
  exact (@configure_alerts_keeps_range small_python m "250" "95" "junk" "y"
           default_thresholds_present default_thresholds_valid).
Defined.

Lemma lower_ascii_is_y (c : ascii) :
  Ascii.eqb (lower_ascii c) "y" = Ascii.eqb c "y" || Ascii.eqb c "Y".
Proof. destruct c as [[] [] [] [] [] [] [] []]; reflexivity. Qed.

Lemma lower_is_y (s : string) :
  String.eqb (lower s) "y" = String.eqb s "y" || String.eqb s "Y".
Proof.
  destruct s as [|c s]; [reflexivity|].
  cbn [lower String.eqb]. rewrite lower_ascii_is_y.
  destruct s as [|c' s]; cbn [lower String.eqb].
  - destruct (Ascii.eqb c "y"), (Ascii.eqb c "Y"); reflexivity.
  - destruct (Ascii.eqb c "y"), (Ascii.eqb c "Y"); reflexivity.
Qed.

(** X7. The alert switch flips exactly when the answer to the toggle
    question is the single letter y or Y; any other answer (yes, a y with a
    blank, an empty line) leaves it as it is. *)
Theorem configure_alerts_toggle `{Python} (m m' : SystemMonitor)
    (cpu_line memory_line disk_line toggle_line : string) (outcomes : list Outcome) :
  configure_alerts m cpu_line memory_line disk_line toggle_line = inr (m', outcomes) ->
  alerts_enabled m'
  = if String.eqb toggle_line "y" || String.eqb toggle_line "Y"
    then negb (alerts_enabled m) else alerts_enabled m.
Proof.
  unfold configure_alerts. intros E.
  apply bind_inr in E as (r & _ & E). cbn [ret] in E.
  injection E as <- _. rewrite <- lower_is_y.
  destruct (String.eqb (lower toggle_line) "y"); reflexivity.
Qed.

Lemma configure_alerts_toggle_witness :
  let m := SystemMonitor_init "linux" in
  exists m' outcomes,
    @configure_alerts small_python m "" "" "" "Y" = inr (m', outcomes)
    /\ alerts_enabled m' = false.
Proof.
  intros m.
  destruct (@configure_alerts_returns small_python m "" "" "" "Y" default_thresholds_present)
    as (m' & outcomes & E & _).
  exists m', outcomes. split; [exact E|].
  exact (@configure_alerts_toggle small_python m m' "" "" "" "Y" outcomes E).
Defined.

(** ** The connectivity test and its summary *)

Lemma sequential_probes_values (net : Network) (servers : list (string * Z)) (now : Z) :
  dict_values (sequential_probes net servers now)
  = map ping_value (attempts_of net servers now).
Proof.
  revert now. induction servers as [|server rest IH]; intros now; [reflexivity|].
  cbn [sequential_probes attempts_of dict_values map snd].
  f_equal. apply IH.
Qed.

Lemma sequential_probes_length (net : Network) (servers : list (string * Z)) (now : Z) :
  length (sequential_probes net servers now) = length servers.
Proof.
  revert now. induction servers as [|server rest IH]; intros now; [reflexivity|].
  cbn [sequential_probes length]. f_equal. apply IH.
Qed.

Lemma valid_pings_of_attempts (attempts : list attempt) :
  length (omap id (map ping_value attempts))
  = length (filter (fun a => is_connected a = true) attempts).
Proof.
  induction attempts as [|[d|d] rest IH]; [reflexivity| |].
  - cbn [map omap list_omap ping_value id]. rewrite filter_cons_True by reflexivity.
    cbn [length]. f_equal. exact IH.
  - cbn [map omap list_omap ping_value id].
    rewrite filter_cons_False by discriminate. exact IH.
Qed.

Lemma no_connection_no_ping (attempts : list attempt) :
  Forall (fun a => is_connected a = false) attempts ->
  omap id (map ping_value attempts) = [].
Proof.
  induction 1 as [|[d|d] rest Hc _ IH]; [reflexivity|discriminate|exact IH].
Qed.

(** X8. The network analysis on distinct hosts: when no attempt connects
    the connectivity summary prints nothing; when one does, it prints the
    number of attempts that connected out of the number of hosts, the mean
    of their times and the quality of that mean. *)
Theorem run_network_analysis_counts `{Python}
    (net : Network) (servers : list (string * Z)) (now : Z) :
  NoDup (map fst servers) ->
  let attempts := attempts_of net servers now in
  let connected := length (filter (fun a => is_connected a = true) attempts) in
  (Forall (fun a => is_connected a = false) attempts ->
   run_network_analysis net servers now = inr [])
  /\ (connected <> 0%nat ->
      exists avg,
        statistics_mean (omap id (map ping_value attempts)) = Some avg
        /\ run_network_analysis net servers now
           = inr [ConnectivityHeader;
                  ReachableServers connected (length servers);
                  AveragePing avg;
                  ConnectionQuality (classify avg)]).
Proof.
  intros Hnd attempts connected.
  assert (Hres : fst (test_connectivity net servers now)
                 = sequential_probes net servers now).
  { unfold test_connectivity.
    rewrite probe_loop_results; [reflexivity | exact Hnd |].
    apply Forall_forall. intros; reflexivity. }
  unfold run_network_analysis, connectivity_summary, valid_pings.
  rewrite Hres, sequential_probes_values, sequential_probes_length.
  fold attempts. split.
  - intros Hall. rewrite (no_connection_no_ping _ Hall). reflexivity.
  - intros Hsome.
    assert (Hlen : length (omap id (map ping_value attempts)) = connected)
      by apply valid_pings_of_attempts.
    destruct (omap id (map ping_value attempts)) as [|p ps] eqn:Hv.
    { simpl in Hlen. congruence. }
    destruct (mean_defined (p :: ps)) as (avg & Hs & Hm); [discriminate|].
    exists avg. split; [exact Hs|]. rewrite Hm. cbn [bind ret].
    rewrite Hlen. reflexivity.
Qed.

Lemma run_network_analysis_counts_witness :
  NoDup (map fst test_servers)
  /\ (Forall (fun a => is_connected a = false) (attempts_of unreachable_net test_servers 0)
      /\ @run_network_analysis small_python unreachable_net test_servers 0 = inr [])
  /\ @run_network_analysis small_python patchy_net test_servers 0
     = inr [ConnectivityHeader; ReachableServers 3 4; AveragePing 25;
            ConnectionQuality Excellent].
Proof.
  split; [exact test_servers_distinct|]. split.
  - assert (Hall : Forall (fun a => is_connected a = false)
                     (attempts_of unreachable_net test_servers 0))
      by (repeat constructor).
    split; [exact Hall|].
    exact (proj1 (@run_network_analysis_counts small_python unreachable_net test_servers 0
                    test_servers_distinct) Hall).
  - destruct (proj2 (@run_network_analysis_counts small_python patchy_net test_servers 0
                       test_servers_distinct)) as (avg & Hs & Hrun).
    { vm_compute. discriminate. }
    rewrite Hrun. vm_compute in Hs. injection Hs as <-. reflexivity.
Defined.

(** ** The loop thread once the flag is down *)

Lemma run_app (a : SystemAnalyzer) (first rest : list action) :
  run a (first ++ rest)
  = match run a first with
    | Some a' => run a' rest
    | None => None
    end.
Proof.
  revert a. induction first as [|act first IH]; intros a; [reflexivity|].
  cbn [app run]. destruct (step a act); [apply IH | reflexivity].
Qed.

Lemma step_keeps_flag_down (a a' : SystemAnalyzer) (act : action) :
  running a = false -> step a act = Some a' -> running a' = false.
Proof.
  intros Hrun. destruct act as [m| | | |now_iso]; cbn [step].
  - unfold monitor_loop_step. destruct (monitor_thread a).
    + intros [= <-]. exact Hrun.
    + destruct (take_snapshot (monitor a) m). intros [= <-]. exact Hrun.
    + intros [= <-]. exact Hrun.
    + discriminate.
  - unfold stop_monitoring_begin. destruct (stopper a); try discriminate.
    intros [= <-]. reflexivity.
  - unfold stop_monitoring_join. destruct (stopper a); try discriminate.
    destruct (Bool.eqb _ _); [|discriminate]. intros [= <-]. exact Hrun.
  - unfold stop_monitoring_join. destruct (stopper a); try discriminate.
    destruct (Bool.eqb _ _); [|discriminate]. intros [= <-]. exact Hrun.
  - unfold stop_monitoring_return. destruct (stopper a); try discriminate.
    intros [= <-]. exact Hrun.
Qed.

Lemma step_uses_a_step (a a' : SystemAnalyzer) (act : action) :
  running a = false -> step a act = Some a' ->
  (steps_left (monitor_thread a') + (if is_loop_step act then 1 else 0)
   <= steps_left (monitor_thread a))%nat.
Proof.
  intros Hrun. destruct act as [m| | | |now_iso]; cbn [step is_loop_step].
  - unfold monitor_loop_step. destruct (monitor_thread a).
    + intros [= <-]. cbn. rewrite Hrun. cbn. lia.
    + destruct (take_snapshot (monitor a) m) as [m' [e|r]]; intros [= <-]; cbn; lia.
    + intros [= <-]. cbn. lia.
    + discriminate.
  - unfold stop_monitoring_begin. destruct (stopper a); try discriminate.
    intros [= <-]. cbn. lia.
  - unfold stop_monitoring_join. destruct (stopper a); try discriminate.
    destruct (Bool.eqb _ _); [|discriminate]. intros [= <-]. cbn. lia.
  - unfold stop_monitoring_join. destruct (stopper a); try discriminate.
    destruct (Bool.eqb _ _); [|discriminate]. intros [= <-]. cbn. lia.
  - unfold stop_monitoring_return. destruct (stopper a); try discriminate.
    intros [= <-]. cbn. lia.
Qed.

Lemma loop_steps_cons (act : action) (rest : list action) :
  loop_steps (act :: rest)
  = ((if is_loop_step act then 1 else 0) + loop_steps rest)%nat.
Proof.
  unfold loop_steps. destruct (is_loop_step act) eqn:E.
  - rewrite filter_cons_True by exact E. reflexivity.
  - rewrite filter_cons_False by (rewrite E; discriminate). reflexivity.
Qed.

Lemma flag_down_bounds_loop (schedule : list action) (a a' : SystemAnalyzer) :
  running a = false ->
  run a schedule = Some a' ->
  (loop_steps schedule + steps_left (monitor_thread a')
   <= steps_left (monitor_thread a))%nat
  /\ running a' = false.
Proof.
  revert a. induction schedule as [|act rest IH]; intros a Hrun Hsched.
  - cbn in Hsched. injection Hsched as <-. split; [cbn; lia | exact Hrun].
  - cbn [run] in Hsched. destruct (step a act) as [a1|] eqn:Hstep; [|discriminate].
    pose proof (step_keeps_flag_down _ _ _ Hrun Hstep) as Hrun1.
    pose proof (step_uses_a_step _ _ _ Hrun Hstep) as Hleft.
    destruct (IH a1 Hrun1 Hsched) as [Hrest Hdown].
    split; [|exact Hdown]. rewrite loop_steps_cons. lia.
Qed.

Lemma stop_begins_clears_flag (a a' : SystemAnalyzer) :
  step a StopBegins = Some a' ->
  running a' = false /\ monitor_thread a' = monitor_thread a
  /\ appends (trace a') = appends (trace a).
Proof.
  cbn [step]. unfold stop_monitoring_begin. destruct (stopper a); try discriminate.
  intros [= <-]. cbn [running monitor_thread trace]. rewrite appends_snoc.
  cbn. repeat split. lia.
Qed.

(** X10. Within one monitoring (one call of [start_monitoring], one of
    [stop_monitoring], and no further call of [start_monitoring], which
    alone sets the flag): once [stop_monitoring] has cleared the flag, the
    loop thread takes at most three more steps (it finishes the cycle under
    way, sleeps, tests the flag); the steps it has taken and the steps it
    can still take never add up to more than three, so after three it has
    ended. *)
Theorem loop_thread_ends_within_three_steps
    (m : SystemMonitor) (file : data_file) (before after_stop : list action)
    (a : SystemAnalyzer) :
  run (start_monitoring m file) (before ++ StopBegins :: after_stop) = Some a ->
  (loop_steps after_stop + steps_left (monitor_thread a) <= 3)%nat
  /\ (loop_steps after_stop <= 3)%nat
  /\ (loop_steps after_stop = 3%nat -> monitor_thread a = LoopDone).
Proof.
  rewrite run_app. destruct (run (start_monitoring m file) before) as [a0|]; [|discriminate].
  cbn [run]. destruct (step a0 StopBegins) as [a1|] eqn:Hstop; [|discriminate].
  intros Hrest.
  destruct (stop_begins_clears_flag _ _ Hstop) as (Hdown & _ & _).
  destruct (flag_down_bounds_loop after_stop a1 a Hdown Hrest) as [Hbound _].
  assert (steps_left (monitor_thread a1) <= 3)%nat by (destruct (monitor_thread a1); cbn; lia).
  split; [lia|]. split; [lia|].
  intros Hthree. destruct (monitor_thread a); cbn in Hbound; try lia. reflexivity.
Qed.

Lemma loop_thread_ends_within_three_steps_witness :
  let schedule := [LoopStep (measurement_of_Z 1)] ++ StopBegins ::
                  [LoopStep (measurement_of_Z 1); LoopStep (measurement_of_Z 1);
                   LoopStep (measurement_of_Z 1); JoinThreadEnded] in
  exists a,
    run (start_monitoring (SystemMonitor_init "linux") NoFile) schedule = Some a
    /\ monitor_thread a = LoopDone.
Proof.
  intros schedule.
  destruct (run (start_monitoring (SystemMonitor_init "linux") NoFile) schedule)
    as [a|] eqn:Hrun; [|vm_compute in Hrun; discriminate].
  exists a. split; [reflexivity|].
  exact (proj2 (proj2 (loop_thread_ends_within_three_steps
                         (SystemMonitor_init "linux") NoFile
                         [LoopStep (measurement_of_Z 1)]
                         [LoopStep (measurement_of_Z 1); LoopStep (measurement_of_Z 1);
                          LoopStep (measurement_of_Z 1); JoinThreadEnded] a Hrun))
               eq_refl).
Defined.





(** ** Reading the system *)

Lemma SFcompare_antisym (a b : spec_float) :
  SFcompare b a = option_map CompOpp (SFcompare a b).
Proof.
  destruct a as [sa|sa| |sa ma ea], b as [sb|sb| |sb mb eb]; cbn;
    try reflexivity;
    try (destruct sa; reflexivity); try (destruct sb; reflexivity);
    try (destruct sa, sb; reflexivity).
  destruct sa, sb; try reflexivity;
    rewrite (Z.compare_antisym ea eb);
    destruct (Z.compare ea eb); cbn; try reflexivity;
    change (PosDef.Pos.compare_cont Eq mb ma) with (Pos.compare mb ma);
    change (PosDef.Pos.compare_cont Eq ma mb) with (Pos.compare ma mb);
    rewrite (Pos.compare_antisym ma mb), ?CompOpp_involutive; reflexivity.
Qed.

(** [<] on floats is asymmetric. *)
Lemma float_lt_asym (a b : float) :
  PrimFloat.ltb a b = true -> PrimFloat.ltb b a = false.
Proof.
  rewrite !FloatAxioms.ltb_spec. unfold SFltb.
  rewrite (SFcompare_antisym (Prim2SF a) (Prim2SF b)).
  destruct (SFcompare (Prim2SF a) (Prim2SF b)) as [[]|]; cbn; congruence.
Qed.

Lemma float_min_100_bound (x : float) :
  PrimFloat.ltb 100 (float_min 100 x) = false.
Proof.
  unfold float_min. destruct (PrimFloat.ltb x 100) eqn:E.
  - apply float_lt_asym. exact E.
  - reflexivity.
Qed.

Lemma cpu_fallback_bound (machine : Machine) (value : float) :
  cpu_fallback machine = inr value -> PrimFloat.ltb 100 value = false.
Proof.
  unfold cpu_fallback. destruct (os_getloadavg machine) as [[load|]|].
  - intros [= <-]. apply float_min_100_bound.
  - discriminate.
  - intros [= <-]. reflexivity.
Qed.

Lemma cpu_fallback_raises (machine : Machine) (e : pyerror) :
  cpu_fallback machine = inl e -> e = Exn OSError /\ os_getloadavg machine = Some None.
Proof.
  unfold cpu_fallback. destruct (os_getloadavg machine) as [[load|]|]; try discriminate.
  intros [= <-]. split; reflexivity.
Qed.

(** X12. Where /proc/loadavg can be read (Linux), the CPU figure is never
    above 100, whatever the file holds: either the load divided by the
    cores, capped at 100, or, when the file does not parse, the fallback,
    capped too; the only exception that can come out is the OSError of
    [os.getloadavg] in that fallback. *)
Theorem get_cpu_usage_capped `{Python}
    (self : SystemMonitor) (machine : Machine) (text : string) :
  String.eqb (platform self) "windows" = false ->
  file_at machine "/proc/loadavg" = Content text ->
  match get_cpu_usage self machine with
  | inr value => PrimFloat.ltb 100 value = false
  | inl e => e = Exn OSError /\ os_getloadavg machine = Some None
  end.
Proof.
  intros Hplat Hfile. unfold get_cpu_usage, cpu_usage_try, path_exists, read_file.
  rewrite Hplat, Hfile. cbn [bind_outcome].
  assert (Hfall : match cpu_fallback machine with
                  | inr value => PrimFloat.ltb 100 value = false
                  | inl e => e = Exn OSError /\ os_getloadavg machine = Some None
                  end).
  { destruct (cpu_fallback machine) as [e|v] eqn:Hf.
    - apply (cpu_fallback_raises _ _ Hf).
    - apply (cpu_fallback_bound _ _ Hf). }
  unfold item. destruct (split_ws text !! 0%nat) as [first|]; cbn [bind_outcome catches_parse];
    [|exact Hfall].
  unfold to_float. destruct (float_of_str first) as [load|]; cbn [bind_outcome catches_parse];
    [|exact Hfall].
  apply float_min_100_bound.
Qed.

Lemma get_cpu_usage_capped_witness :
  let self := SystemMonitor_init "linux" in
  String.eqb (platform self) "windows" = false
  /\ file_at small_linux "/proc/loadavg" = Content "6 1 1 2/345 6789"
  /\ @get_cpu_usage small_python self small_linux = inr 100%float
  /\ PrimFloat.ltb 100 100 = false.
Proof.
  intros self. split; [reflexivity|]. split; [reflexivity|].
  pose proof (@get_cpu_usage_capped small_python self small_linux "6 1 1 2/345 6789"
                eq_refl eq_refl) as Hcap.
  assert (Hval : @get_cpu_usage small_python self small_linux = inr 100%float)
    by (vm_compute; reflexivity).
  rewrite Hval in Hcap. split; [exact Hval | exact Hcap].
Defined.

Lemma scan_wmic_absent `{PythonInt} (key : string) (scale : Z) (lines : list string) (value : Z) :
  Forall (fun line => contains key line = false) lines ->
  scan_wmic_value key scale lines value = inr value.
Proof.
  induction 1 as [|line rest Hline _ IH]; [reflexivity|].
  cbn [scan_wmic_value]. rewrite Hline. exact IH.
Qed.

Lemma int_div_zero `{Python} (a : Z) : int_div a 0 = inl (Exn ZeroDivisionError).
Proof. reflexivity. Qed.

Lemma int_div_in_range `{Python} (a b : Z) :
  b <> 0%Z -> quotient_overflows a b = false -> int_div a b = inr (int_truediv a b).
Proof.
  intros Hb Hq. unfold int_div. rewrite Hq.
  destruct (Z.eqb_spec b 0); [contradiction | reflexivity].
Qed.

Lemma int_div_raises `{Python} (a b : Z) (e : pyerror) :
  b <> 0%Z -> int_div a b = inl e -> e = OverflowError.
Proof.
  intros Hb. unfold int_div. destruct (Z.eqb_spec b 0); [contradiction|].
  destruct (quotient_overflows a b); [intros [= <-]; reflexivity | discriminate].
Qed.

Lemma zero_quotient_in_range (b : Z) : b <> 0%Z -> quotient_overflows 0 b = false.
Proof.
  intros Hb. unfold quotient_overflows. apply Z.leb_gt.
  change (Z.abs 0) with 0%Z.
  assert (0 < 2 ^ 1024 - 2 ^ 970)%Z by (vm_compute; reflexivity).
  nia.
Qed.

Lemma memory_figures_zero_total `{Python} (used : Z) :
  quotient_overflows used (1024 ^ 3) = false ->
  memory_figures used 0 = inl (Exn ZeroDivisionError).
Proof.
  intros Hused. unfold memory_figures.
  rewrite (int_div_in_range 0 (1024 ^ 3))
    by (try apply zero_quotient_in_range; discriminate).
  cbn [bind_outcome].
  rewrite (int_div_in_range used (1024 ^ 3)) by (try exact Hused; discriminate).
  cbn [bind_outcome]. rewrite int_div_zero. reflexivity.
Qed.

Lemma memory_usage_windows_zero_total `{Python} `{PythonInt}
    (self : SystemMonitor) (machine : Machine) (avail_bytes : Z) :
  String.eqb (platform self) "windows" = true ->
  Forall (fun line => contains "TotalPhysicalMemory" line = false)
    (split_sep newline
       (_run_command machine "wmic computersystem get TotalPhysicalMemory /value")) ->
  scan_wmic_value "AvailablePhysicalMemory" 1024
    (split_sep newline (_run_command machine "wmic OS get AvailablePhysicalMemory /value")) 0
  = inr avail_bytes ->
  quotient_overflows (0 - avail_bytes) (1024 ^ 3) = false ->
  get_memory_usage self machine = inl (Exn ZeroDivisionError).
Proof.
  intros Hplat Htotal Havail Hrange. unfold get_memory_usage, memory_usage_try.
  rewrite Hplat. cbv zeta.
  rewrite (scan_wmic_absent _ _ _ _ Htotal). cbn [bind_outcome].
  rewrite Havail. cbn [bind_outcome].
  rewrite (memory_figures_zero_total _ Hrange). reflexivity.
Qed.

(** X13. On Windows the memory figures are divided out without a guard: when
    no line of the wmic answer mentions TotalPhysicalMemory (as when the
    command fails and its output is empty) and the available-memory answer
    is read without error, as a count within the range of floats,
    [get_memory_usage] raises ZeroDivisionError, which its handler does not
    catch. *)
Theorem get_memory_usage_windows_divides_by_zero `{Python} `{PythonInt}
    (self : SystemMonitor) (machine : Machine) (avail_bytes : Z) :
  String.eqb (platform self) "windows" = true ->
  Forall (fun line => contains "TotalPhysicalMemory" line = false)
    (split_sep newline
       (_run_command machine "wmic computersystem get TotalPhysicalMemory /value")) ->
  scan_wmic_value "AvailablePhysicalMemory" 1024
    (split_sep newline (_run_command machine "wmic OS get AvailablePhysicalMemory /value")) 0
  = inr avail_bytes ->
  quotient_overflows (0 - avail_bytes) (1024 ^ 3) = false ->
  get_memory_usage self machine = inl (Exn ZeroDivisionError).
Proof. apply memory_usage_windows_zero_total. Qed.

Lemma get_memory_usage_windows_divides_by_zero_witness :
  let self := SystemMonitor_init "windows" in
  String.eqb (platform self) "windows" = true
  /\ @get_memory_usage small_python small_int self bare_windows
     = inl (Exn ZeroDivisionError).
Proof.
  intros self. split; [reflexivity|].
  apply (@get_memory_usage_windows_divides_by_zero small_python small_int
           self bare_windows 0 eq_refl).
  - repeat constructor.
  - reflexivity.
  - vm_compute. reflexivity.
Defined.

Lemma item_raises {A} (l : list A) (i : nat) (e : pyerror) :
  item l i = inl e -> catches_parse e = true.
Proof. unfold item. destruct (l !! i); [discriminate | intros [= <-]; reflexivity]. Qed.

Lemma to_int_raises `{PythonInt} (s : string) (e : pyerror) :
  to_int s = inl e -> catches_parse e = true.
Proof. unfold to_int. destruct (int_of_str s); [discriminate | intros [= <-]; reflexivity]. Qed.

Lemma bind_outcome_inl {A B} (m : outcome A) (k : A -> outcome B) (e : pyerror) :
  bind_outcome m k = inl e -> m = inl e \/ exists a, m = inr a /\ k a = inl e.
Proof.
  destruct m as [e'|a]; cbn.
  - intros [= ->]. left. reflexivity.
  - intros Hk. right. exists a. split; [reflexivity | exact Hk].
Qed.

Lemma int_field_raises `{PythonInt} (parts : list string) (i : nat)
    (k : Z -> outcome (Z * Z)) (e : pyerror) :
  (forall n, k n = inl e -> catches_parse e = true) ->
  (perform field <- item parts i; perform n <- to_int field; k n) = inl e ->
  catches_parse e = true.
Proof.
  intros Hk Hb.
  apply bind_outcome_inl in Hb as [Hb|(field & _ & Hb)]; [apply (item_raises _ _ _ Hb)|].
  apply bind_outcome_inl in Hb as [Hb|(n & _ & Hb)]; [apply (to_int_raises _ _ Hb)|].
  apply (Hk n Hb).
Qed.

(** The scan of /proc/meminfo raises nothing but what the handler catches. *)
Lemma scan_meminfo_raises `{PythonInt} (lines : list string) (total available : Z) (e : pyerror) :
  scan_meminfo lines total available = inl e -> catches_parse e = true.
Proof.
  revert total available. induction lines as [|line rest IH]; intros total available.
  - discriminate.
  - cbn [scan_meminfo]. destruct (startswith "MemTotal:" line).
    + apply int_field_raises. intros n. apply IH.
    + destruct (startswith "MemAvailable:" line).
      * apply int_field_raises. intros n. apply IH.
      * apply IH.
Qed.

Lemma pages_field_raises `{PythonInt} (line : string) (i : nat) (e : pyerror) :
  pages_field line i = inl e -> catches_parse e = true.
Proof.
  unfold pages_field. intros Hb.
  apply bind_outcome_inl in Hb as [Hb|(field & _ & Hb)]; [apply (item_raises _ _ _ Hb)|].
  apply (to_int_raises _ _ Hb).
Qed.

Lemma scan_vm_stat_raises `{PythonInt} (lines : list string) (f a i w : Z) (e : pyerror) :
  scan_vm_stat lines f a i w = inl e -> catches_parse e = true.
Proof.
  revert f a i w. induction lines as [|line rest IH]; intros f a i w.
  - discriminate.
  - cbn [scan_vm_stat].
    destruct (contains "free:" line);
      [intros Hb; apply bind_outcome_inl in Hb as [Hb|(n & _ & Hb)];
       [apply (pages_field_raises _ _ _ Hb) | apply (IH _ _ _ _ Hb)]|].
    destruct (contains "active:" line);
      [intros Hb; apply bind_outcome_inl in Hb as [Hb|(n & _ & Hb)];
       [apply (pages_field_raises _ _ _ Hb) | apply (IH _ _ _ _ Hb)]|].
    destruct (contains "inactive:" line);
      [intros Hb; apply bind_outcome_inl in Hb as [Hb|(n & _ & Hb)];
       [apply (pages_field_raises _ _ _ Hb) | apply (IH _ _ _ _ Hb)]|].
    destruct (contains "wired down:" line);
      [intros Hb; apply bind_outcome_inl in Hb as [Hb|(n & _ & Hb)];
       [apply (pages_field_raises _ _ _ Hb) | apply (IH _ _ _ _ Hb)]|].
    apply IH.
Qed.

(** Three quotients by divisors that are not zero raise OverflowError or
    nothing. *)
Lemma three_quotients_raise `{Python} {A} (a1 b1 a2 b2 a3 b3 : Z)
    (k : float -> float -> float -> A) (e : pyerror) :
  b1 <> 0%Z -> b2 <> 0%Z -> b3 <> 0%Z ->
  (perform x <- int_div a1 b1; perform y <- int_div a2 b2; perform z <- int_div a3 b3;
   inr (k x y z)) = inl e ->
  e = OverflowError.
Proof.
  intros H1 H2 H3 Hb.
  apply bind_outcome_inl in Hb as [Hb|(x & _ & Hb)]; [apply (int_div_raises _ _ _ H1 Hb)|].
  apply bind_outcome_inl in Hb as [Hb|(y & _ & Hb)]; [apply (int_div_raises _ _ _ H2 Hb)|].
  apply bind_outcome_inl in Hb as [Hb|(z & _ & Hb)]; [apply (int_div_raises _ _ _ H3 Hb)|].
  discriminate.
Qed.

(** Off Windows the body of the [try] raises nothing but what the handler
    catches and the OverflowError of a quotient, unless /proc/meminfo is
    there and cannot be opened. *)
Lemma memory_usage_try_raises `{Python} `{PythonInt}
    (self : SystemMonitor) (machine : Machine) (e : pyerror) :
  String.eqb (platform self) "windows" = false ->
  file_at machine "/proc/meminfo" <> Unreadable ->
  memory_usage_try self machine = inl e -> catches_parse e = true \/ e = OverflowError.
Proof.
  intros Hplat Hfile. unfold memory_usage_try, path_exists, read_file. rewrite Hplat.
  destruct (file_at machine "/proc/meminfo") as [| |text]; [|contradiction|].
  - cbv zeta. intros Hb.
    apply bind_outcome_inl in Hb as [Hb|([[[f a] i] w] & _ & Hb)];
      [left; apply (scan_vm_stat_raises _ _ _ _ _ _ Hb)|].
    destruct (f + a + i + w >? 0)%Z eqn:Hpos; [|discriminate].
    right. apply Z.gtb_lt in Hpos.
    refine (three_quotients_raise _ (1024 ^ 3) _ (1024 ^ 3) _ (f + a + i + w)
              (fun x y z => Some ((z * 100)%float, y, x)) e _ _ _ Hb);
      [discriminate | discriminate | lia].
  - cbn [bind_outcome]. intros Hb.
    apply bind_outcome_inl in Hb as [Hb|([total available] & _ & Hb)];
      [left; apply (scan_meminfo_raises _ _ _ _ Hb)|].
    destruct (total >? 0)%Z eqn:Hpos; [|discriminate].
    right. apply Z.gtb_lt in Hpos.
    apply bind_outcome_inl in Hb as [Hb|(figures & _ & Hb)]; [|discriminate].
    unfold memory_figures in Hb.
    refine (three_quotients_raise _ (1024 ^ 3) _ (1024 ^ 3) _ total
              (fun x y z => ((z * 100)%float, y, x)) e _ _ _ Hb);
      [discriminate | discriminate | lia].
Qed.

Lemma get_memory_usage_raises `{Python} `{PythonInt}
    (self : SystemMonitor) (machine : Machine) (e : pyerror) :
  String.eqb (platform self) "windows" = false ->
  file_at machine "/proc/meminfo" <> Unreadable ->
  get_memory_usage self machine = inl e -> e = OverflowError.
Proof.
  intros Hplat Hfile. unfold get_memory_usage.
  destruct (memory_usage_try self machine) as [e'|[figures|]] eqn:Htry; try discriminate.
  destruct (memory_usage_try_raises self machine e' Hplat Hfile Htry) as [Hc| ->].
  - rewrite Hc. discriminate.
  - intros [= <-]. reflexivity.
Qed.

Lemma get_memory_usage_returns `{Python} `{PythonInt}
    (self : SystemMonitor) (machine : Machine) :
  String.eqb (platform self) "windows" = false ->
  file_at machine "/proc/meminfo" <> Unreadable ->
  get_memory_usage self machine <> inl OverflowError ->
  exists figures, get_memory_usage self machine = inr figures.
Proof.
  intros Hplat Hfile Hrange.
  destruct (get_memory_usage self machine) as [e|figures] eqn:Hget.
  - rewrite (get_memory_usage_raises self machine e Hplat Hfile Hget) in Hrange.
    contradiction.
  - eexists. reflexivity.
Qed.

Lemma scan_meminfo_no_total `{PythonInt} (lines : list string) (total available : Z)
    (total' available' : Z) :
  Forall (fun line => startswith "MemTotal:" line = false) lines ->
  scan_meminfo lines total available = inr (total', available') ->
  total' = total.
Proof.
  intros Hall. revert total available.
  induction Hall as [|line rest Hline _ IH]; intros total available.
  - cbn. intros [= <- _]. reflexivity.
  - cbn [scan_meminfo]. rewrite Hline.
    destruct (startswith "MemAvailable:" line); [|apply IH].
    destruct (item (split_ws line) 1) as [e|field]; [discriminate|]. cbn [bind_outcome].
    destruct (to_int field) as [e|n]; [discriminate|]. cbn [bind_outcome].
    apply IH.
Qed.

(** X14. Off Windows, with /proc/meminfo readable or absent,
    [get_memory_usage] is guarded: a line that does not parse gives the
    default and the percentage is divided out only for a positive total, so
    that nothing is raised but the OverflowError of a count beyond the range
    of floats (never ZeroDivisionError); and on Linux a /proc/meminfo
    without a MemTotal line gives (0.0, 0.0, 0.0). *)
Theorem get_memory_usage_guarded `{Python} `{PythonInt}
    (self : SystemMonitor) (machine : Machine) :
  String.eqb (platform self) "windows" = false ->
  file_at machine "/proc/meminfo" <> Unreadable ->
  (forall e, get_memory_usage self machine = inl e -> e = OverflowError)
  /\ (forall text,
        file_at machine "/proc/meminfo" = Content text ->
        Forall (fun line => startswith "MemTotal:" line = false) (split_sep newline text) ->
        get_memory_usage self machine = inr (0%float, 0%float, 0%float)).
Proof.
  intros Hplat Hfile.
  split; [intros e; apply (get_memory_usage_raises self machine e Hplat Hfile)|].
  intros text Htext Hnone.
  unfold get_memory_usage, memory_usage_try, path_exists, read_file.
  rewrite Hplat, Htext. cbn [bind_outcome].
  destruct (scan_meminfo (split_sep newline text) 0 0) as [e|[total available]] eqn:Hscan.
  - cbn [bind_outcome]. rewrite (scan_meminfo_raises _ _ _ _ Hscan). reflexivity.
  - cbn [bind_outcome].
    rewrite (scan_meminfo_no_total _ _ _ _ _ Hnone Hscan). reflexivity.
Qed.

Lemma get_memory_usage_guarded_witness :
  let self := SystemMonitor_init "linux" in
  String.eqb (platform self) "windows" = false
  /\ file_at small_linux "/proc/meminfo" <> Unreadable
  /\ forall e,
       @get_memory_usage small_python small_int self small_linux = inl e ->
       e = OverflowError.
Proof.
  intros self.
  assert (Hfile : file_at small_linux "/proc/meminfo" <> Unreadable) by discriminate.
  split; [reflexivity|]. split; [exact Hfile|].
  exact (proj1 (@get_memory_usage_guarded small_python small_int self small_linux
                  eq_refl Hfile)).
Defined.

Lemma contains_tail (c : ascii) (sub s : string) :
  contains (String c sub) s = true -> contains sub s = true.
Proof.
  induction s as [|c' s IH].
  - cbn. rewrite orb_false_r. discriminate.
  - cbn [contains]. intros Hc. apply orb_true_iff in Hc as [Hp|Hc].
    + apply orb_true_iff. right.
      cbn [String.prefix] in Hp.
      destruct (ascii_dec c c'); [|discriminate].
      destruct s as [|c'' s']; cbn [contains]; rewrite Hp; reflexivity.
    + apply orb_true_iff. right. apply IH. exact Hc.
Qed.

Lemma inactive_mentions_active (line : string) :
  contains "inactive:" line = true -> contains "active:" line = true.
Proof. intros Hc. apply contains_tail in Hc. apply contains_tail in Hc. exact Hc. Qed.

(** X15. In the scan of vm_stat (macOS) the branch for the inactive pages is
    never taken: a line that mentions inactive: mentions active: too and is
    read as the count of active pages, so [pages_inactive] keeps the value
    it had before the scan (0 in [get_memory_usage]). *)
Theorem scan_vm_stat_never_counts_inactive `{PythonInt}
    (lines : list string) (free active inactive wired : Z)
    (free' active' inactive' wired' : Z) :
  scan_vm_stat lines free active inactive wired = inr (free', active', inactive', wired') ->
  inactive' = inactive.
Proof.
  revert free active wired. induction lines as [|line rest IH]; intros free active wired.
  - cbn. intros [= _ _ <- _]. reflexivity.
  - cbn [scan_vm_stat].
    destruct (contains "free:" line).
    { destruct (pages_field line 2); [discriminate|]. cbn [bind_outcome]. apply IH. }
    destruct (contains "active:" line) eqn:Hactive.
    { destruct (pages_field line 2); [discriminate|]. cbn [bind_outcome]. apply IH. }
    destruct (contains "inactive:" line) eqn:Hinactive.
    { apply inactive_mentions_active in Hinactive. congruence. }
    destruct (contains "wired down:" line).
    { destruct (pages_field line 3); [discriminate|]. cbn [bind_outcome]. apply IH. }
    apply IH.
Qed.

Lemma scan_vm_stat_never_counts_inactive_witness :
  let lines := ["Pages free: 100."; "Pages active: 200."; "Pages inactive: 300.";
                "Pages wired down: 50."] in
  @scan_vm_stat small_int lines 0 0 0 0 = inr (100, 300, 0, 50)%Z
  /\ 0%Z = 0%Z.
Proof.
  intros lines.
  assert (Hscan : @scan_vm_stat small_int lines 0 0 0 0 = inr (100, 300, 0, 50)%Z)
    by (vm_compute; reflexivity).
  split; [exact Hscan|].
  exact (@scan_vm_stat_never_counts_inactive small_int lines 0 0 0 0 100 300 0 50 Hscan).
Defined.

(** ** A snapshot on a machine *)

Lemma to_float_raises `{Python} (s : string) (e : pyerror) :
  to_float s = inl e -> catches_parse e = true.
Proof. unfold to_float. destruct (float_of_str s); [discriminate | intros [= <-]; reflexivity]. Qed.

Lemma last_item_raises {A} (l : list A) (e : pyerror) :
  last_item l = inl e -> catches_parse e = true.
Proof. unfold last_item. destruct (last l); [discriminate | intros [= <-]; reflexivity]. Qed.

Lemma scan_load_percentage_raises `{Python} (lines : list string) (e : pyerror) :
  scan_load_percentage lines = inl e -> catches_parse e = true.
Proof.
  induction lines as [|line rest IH]; [discriminate|].
  cbn [scan_load_percentage]. destruct (contains "LoadPercentage" line); [|exact IH].
  intros Hb.
  apply bind_outcome_inl in Hb as [Hb|(field & _ & Hb)]; [apply (item_raises _ _ _ Hb)|].
  apply bind_outcome_inl in Hb as [Hb|(value & _ & Hb)]; [apply (to_float_raises _ _ Hb)|].
  discriminate.
Qed.

Lemma scan_cpu_usage_raises `{Python} (lines : list string) (e : pyerror) :
  scan_cpu_usage lines = inl e -> catches_parse e = true.
Proof.
  induction lines as [|line rest IH]; [discriminate|].
  cbn [scan_cpu_usage]. destruct (contains "CPU usage" line); [|exact IH].
  cbv zeta. destruct (3 <=? length (split_sep "," line))%nat; [|exact IH].
  intros Hb.
  apply bind_outcome_inl in Hb as [Hb|(part & _ & Hb)]; [apply (item_raises _ _ _ Hb)|].
  apply bind_outcome_inl in Hb as [Hb|(before & _ & Hb)]; [apply (item_raises _ _ _ Hb)|].
  apply bind_outcome_inl in Hb as [Hb|(word & _ & Hb)]; [apply (last_item_raises _ _ Hb)|].
  apply bind_outcome_inl in Hb as [Hb|(idle & _ & Hb)]; [apply (to_float_raises _ _ Hb)|].
  discriminate.
Qed.

(** The body of the [try] of [get_cpu_usage] raises nothing but what the
    handler catches, unless /proc/loadavg is read and cannot be opened. *)
Lemma cpu_usage_try_raises `{Python} (self : SystemMonitor) (machine : Machine) (e : pyerror) :
  String.eqb (platform self) "windows" = true \/ file_at machine "/proc/loadavg" <> Unreadable ->
  cpu_usage_try self machine = inl e -> catches_parse e = true.
Proof.
  intros Hcase. unfold cpu_usage_try, path_exists, read_file.
  destruct (String.eqb (platform self) "windows"); [apply scan_load_percentage_raises|].
  destruct Hcase as [Hw|Hfile]; [discriminate|].
  destruct (file_at machine "/proc/loadavg") as [| |text]; [|contradiction|].
  - apply scan_cpu_usage_raises.
  - cbn [bind_outcome]. intros Hb.
    apply bind_outcome_inl in Hb as [Hb|(first & _ & Hb)]; [apply (item_raises _ _ _ Hb)|].
    apply bind_outcome_inl in Hb as [Hb|(load & _ & Hb)]; [apply (to_float_raises _ _ Hb)|].
    discriminate.
Qed.

Lemma get_cpu_usage_returns `{Python} (self : SystemMonitor) (machine : Machine) :
  String.eqb (platform self) "windows" = true \/ file_at machine "/proc/loadavg" <> Unreadable ->
  os_getloadavg machine <> Some None ->
  exists value, get_cpu_usage self machine = inr value.
Proof.
  intros Hcase Hload.
  assert (Hfall : exists value, cpu_fallback machine = inr value).
  { unfold cpu_fallback. destruct (os_getloadavg machine) as [[load|]|];
      [eexists; reflexivity | contradiction | eexists; reflexivity]. }
  unfold get_cpu_usage.
  destruct (cpu_usage_try self machine) as [e|[value|]] eqn:Htry.
  - rewrite (cpu_usage_try_raises self machine e Hcase Htry). exact Hfall.
  - eexists. reflexivity.
  - exact Hfall.
Qed.

Lemma get_disk_usage_returns `{Python} (self : SystemMonitor) (host : Host) :
  exists usage, get_disk_usage self host None = inr usage.
Proof.
  destruct (disk_bytes host (default_path self None)) as [e|[[total free] used]] eqn:Hb.
  - eexists. apply (get_disk_usage_default self host None e (default_path_accepted self host) Hb).
  - unfold get_disk_usage. rewrite (disk_usage_try_of_bytes host _ total free used Hb).
    eexists. reflexivity.
Qed.

(** X16. On Windows, when the wmic answer does not mention
    TotalPhysicalMemory (as when wmic is missing) and the available-memory
    answer is read without error, as a count within the range of floats,
    [take_snapshot] raises ZeroDivisionError out of [get_memory_usage]: no
    snapshot is built and the monitor, its history included, stays as it
    was. *)
Theorem take_snapshot_raises_without_memory_total `{Python} `{PythonInt}
    (self : SystemMonitor) (machine : Machine) (now : string) (avail_bytes : Z) :
  String.eqb (platform self) "windows" = true ->
  os_getloadavg machine <> Some None ->
  Forall (fun line => contains "TotalPhysicalMemory" line = false)
    (split_sep newline
       (_run_command machine "wmic computersystem get TotalPhysicalMemory /value")) ->
  scan_wmic_value "AvailablePhysicalMemory" 1024
    (split_sep newline (_run_command machine "wmic OS get AvailablePhysicalMemory /value")) 0
  = inr avail_bytes ->
  quotient_overflows (0 - avail_bytes) (1024 ^ 3) = false ->
  take_snapshot_on self machine now = (self, inl (Exn ZeroDivisionError)).
Proof.
  intros Hplat Hload Htotal Havail Hrange.
  destruct (get_cpu_usage_returns self machine (or_introl Hplat) Hload) as [cpu Hcpu].
  unfold take_snapshot_on, collect. rewrite Hcpu. cbn [bind_outcome].
  rewrite (memory_usage_windows_zero_total self machine avail_bytes Hplat Htotal Havail Hrange).
  reflexivity.
Qed.

Lemma take_snapshot_raises_without_memory_total_witness :
  let self := SystemMonitor_init "windows" in
  @take_snapshot_on small_python small_int self bare_windows "2024-01-01 00:00:00"
  = (self, inl (Exn ZeroDivisionError)).
Proof.
  intros self.
  apply (@take_snapshot_raises_without_memory_total small_python small_int
           self bare_windows "2024-01-01 00:00:00" 0 eq_refl).
  - discriminate.
  - repeat constructor.
  - reflexivity.
  - vm_compute. reflexivity.
Defined.

(** X17. Off Windows, with /proc/loadavg and /proc/meminfo readable or
    absent, [os.getloadavg] not failing, the memory counts within the range
    of floats and the three thresholds present, [take_snapshot] always
    returns: whatever the files and the commands give, a snapshot stamped
    with the current time is built, appended to the history (cut to its
    last 100) and returned. *)
Theorem take_snapshot_returns_off_windows `{Python} `{PythonInt}
    (self : SystemMonitor) (machine : Machine) (now : string) :
  String.eqb (platform self) "windows" = false ->
  file_at machine "/proc/loadavg" <> Unreadable ->
  file_at machine "/proc/meminfo" <> Unreadable ->
  os_getloadavg machine <> Some None ->
  get_memory_usage self machine <> inl OverflowError ->
  has_thresholds (alert_thresholds self) ->
  exists snapshot alerts,
    snd (take_snapshot_on self machine now) = inr (snapshot, alerts)
    /\ snapshots (fst (take_snapshot_on self machine now))
       = lastn 100 (snapshots self ++ [snapshot])
    /\ timestamp snapshot = now
    /\ network_bytes_sent snapshot = fst (_get_network_stats self machine)
    /\ network_bytes_recv snapshot = snd (_get_network_stats self machine)
    /\ active_connections snapshot = get_active_connections machine.
Proof.
  intros Hplat Hloadavg Hmeminfo Hload Hrange Hthresholds.
  destruct (get_cpu_usage_returns self machine (or_intror Hloadavg) Hload) as [cpu Hcpu].
  destruct (get_memory_usage_returns self machine Hplat Hmeminfo Hrange)
    as [[[mp mu] mt] Hmem].
  destruct (get_disk_usage_returns self (filesystem machine)) as [[[dp du] dt] Hdisk].
  unfold take_snapshot_on, collect.
  rewrite Hcpu, Hmem, Hdisk. cbn [bind_outcome lift].
  set (m := {| m_now := now; m_cpu := cpu; m_memory := (mp, mu, mt); m_disk := (dp, du, dt);
               m_network := _get_network_stats self machine;
               m_connections := get_active_connections machine |}).
  cbn [fst snd].
  assert (Hsnd : exists alerts, snd (take_snapshot self m) = inr (build_snapshot m, alerts)).
  { unfold take_snapshot. cbv zeta.
    destruct (alerts_enabled (set_snapshots self _)); cbn [snd];
      [|eexists; reflexivity].
    destruct (check_alerts_returns (set_snapshots self
                (if (100 <? length (snapshots self ++ [build_snapshot m]))%nat
                 then lastn 100 (snapshots self ++ [build_snapshot m])
                 else snapshots self ++ [build_snapshot m]))
                (build_snapshot m) Hthresholds) as [alerts Halerts].
    rewrite Halerts. eexists. reflexivity. }
  destruct Hsnd as [alerts Hsnd].
  exists (build_snapshot m), alerts. rewrite Hsnd.
  split; [reflexivity|]. split; [apply take_snapshot_history|].
  unfold build_snapshot, m. cbn [m_now m_memory m_disk m_network m_connections m_cpu].
  destruct (_get_network_stats self machine) as [sent recv].
  repeat split; reflexivity.
Qed.

Lemma take_snapshot_returns_off_windows_witness :
  let self := SystemMonitor_init "linux" in
  exists snapshot alerts,
    snd (@take_snapshot_on small_python small_int self small_linux "2024-01-01 00:00:00")
    = inr (snapshot, alerts)
    /\ snapshots (fst (@take_snapshot_on small_python small_int self small_linux
                         "2024-01-01 00:00:00"))
       = lastn 100 (snapshots self ++ [snapshot])
    /\ timestamp snapshot = "2024-01-01 00:00:00"
    /\ network_bytes_sent snapshot = fst (@_get_network_stats small_int self small_linux)
    /\ network_bytes_recv snapshot = snd (@_get_network_stats small_int self small_linux)
    /\ active_connections snapshot = get_active_connections small_linux.
Proof.
  intros self.
  apply (@take_snapshot_returns_off_windows small_python small_int self small_linux
           "2024-01-01 00:00:00" eq_refl).
  - discriminate.
  - discriminate.
  - discriminate.
  - vm_compute. discriminate.
  - apply default_thresholds_present.
Defined.

Lemma run_command_fails (machine : Machine) (command : string) :
  (forall args stdout, subprocess_run machine args <> Completed stdout) ->
  _run_command machine command = EmptyString.
Proof.
  intros Hnone. unfold _run_command.
  destruct (subprocess_run machine (split_ws command)) as [stdout| |] eqn:Hrun;
    [exfalso; apply (Hnone _ _ Hrun) | reflexivity | reflexivity].
Qed.

(** X18. When no command completes (each one is missing or runs into the
    timeout), nothing is raised and the figures are zero:
    [get_active_connections] returns 0, and [_get_network_stats] returns
    zero counters on Windows and wherever /proc/net/dev cannot be read. *)
Theorem failing_commands_give_zeros `{PythonInt} (self : SystemMonitor) (machine : Machine) :
  (forall args stdout, subprocess_run machine args <> Completed stdout) ->
  get_active_connections machine = 0%Z
  /\ (String.eqb (platform self) "windows" = true
      \/ (forall text, file_at machine "/proc/net/dev" <> Content text) ->
      _get_network_stats self machine = (0%Z, 0%Z)).
Proof.
  intros Hnone. split.
  - unfold get_active_connections. rewrite (run_command_fails machine _ Hnone). reflexivity.
  - intros Hcase. unfold _get_network_stats, path_exists, read_file. cbv zeta.
    rewrite !(run_command_fails machine _ Hnone).
    destruct (String.eqb (platform self) "windows"); [reflexivity|].
    destruct Hcase as [Hw|Hfile]; [discriminate|].
    destruct (file_at machine "/proc/net/dev") as [| |text];
      [reflexivity | reflexivity | exfalso; apply (Hfile text); reflexivity].
Qed.

Lemma failing_commands_give_zeros_witness :
  let self := SystemMonitor_init "windows" in
  get_active_connections bare_windows = 0%Z
  /\ (String.eqb (platform self) "windows" = true
      \/ (forall text, file_at bare_windows "/proc/net/dev" <> Content text) ->
      @_get_network_stats small_int self bare_windows = (0%Z, 0%Z)).
Proof.
  intros self.
  apply (@failing_commands_give_zeros small_int self bare_windows).
  intros args stdout. discriminate.
Defined.
